(** * Download orchestration engine of [scripts/download_manager.py]

    A shallow embedding of the URL extractor, the URL classifier, the
    history ledger, the retry executor, the Google Docs export resolver,
    the DRM handshake and resolution selection, the dispatcher
    [download_video] and the batch loop of [main], followed by the
    properties of the specification that concern them.

    Conventions of the embedding.
    - A Python [str] is a [string]; scanning code works on its list of
      characters.  Characters are the code points 0 to 255, carried by
      [ascii]; the regular-expression classes [\d], [\w], [\s], the flag
      [re.IGNORECASE] and [str.lower] have the meaning Python 3 gives them
      on these code points.
    - A Python [dict] used as a map is a [gmap]; the values of the ledger
      are records, as [mark_downloaded] writes them.
    - Integers of the configuration are in [Z].
    - Effects (ledger, console and event stream, network, sleeping) are
      threaded through an explicit [World]; a raised exception is the
      [Raise] result of a computation.
    - The remote servers, the libraries and the downloaders whose body is
      streaming I/O are collaborators: the engine is parameterised by
      them. *)

From Stdlib Require Import ZArith Ascii String List Bool Lia DecimalString.
From stdpp Require Import base option list gmap strings.

Local Open Scope Z_scope.
Local Open Scope list_scope.

(** ** Python string primitives, on lists of characters *)

Module PyStr.

Definition chars (s : string) : list ascii := list_ascii_of_string s.
Definition str (l : list ascii) : string := string_of_list_ascii l.

Definition code (c : ascii) : N := N_of_ascii c.

(** [lo <= c <= hi] on code points: a regex range [lo-hi]. *)
Definition in_range (lo hi c : ascii) : bool :=
  (code lo <=? code c)%N && (code c <=? code hi)%N.

Definition ceqb (a b : ascii) : bool := Ascii.eqb a b.

(** [c in cs] for a class written as an enumeration. *)
Definition one_of (cs : string) (c : ascii) : bool :=
  existsb (ceqb c) (chars cs).

Definition is_digit (c : ascii) : bool := in_range "0" "9" c.
Definition is_lower (c : ascii) : bool := in_range "a" "z" c.
Definition is_upper (c : ascii) : bool := in_range "A" "Z" c.
Definition is_alpha (c : ascii) : bool := is_lower c || is_upper c.
Definition is_hex (c : ascii) : bool :=
  is_digit c || in_range "a" "f" c || in_range "A" "F" c.
(** [\s]: space, tab, newline, vertical tab, form feed, carriage return,
    the four information separators 28 to 31, next line (133) and the
    no-break space (160). *)
Definition is_space (c : ascii) : bool :=
  one_of " " c || in_range "009" "013" c || in_range "028" "031" c
  || ceqb c "133" || ceqb c "160".
(** The alphanumeric characters from 128 to 255: the ordinal indicators
    170 and 186, the micro sign 181, the superscript digits 178, 179 and
    185, the fractions 188 to 190, and the letters 192 to 255 but for the
    signs 215 and 247. *)
Definition is_latin1_alnum (c : ascii) : bool :=
  ceqb c "170" || ceqb c "186" || ceqb c "181"
  || in_range "178" "179" c || ceqb c "185" || in_range "188" "190" c
  || in_range "192" "214" c || in_range "216" "246" c || in_range "248" "255" c.
(** [\w]: the alphanumeric characters and the underscore. *)
Definition is_word (c : ascii) : bool :=
  is_alpha c || is_digit c || ceqb c "_" || is_latin1_alnum c.

(** [c.lower()]: the capital letters, 65 to 90 and 192 to 222 but for the
    multiplication sign 215, are 32 below their small letters. *)
Definition lower_char (c : ascii) : ascii :=
  if is_upper c || in_range "192" "214" c || in_range "216" "222" c
  then ascii_of_N (code c + 32) else c.
Definition lower (s : list ascii) : list ascii := map lower_char s.

(** [s.count(c)] for a one-character needle. *)
Definition count (c : ascii) (s : list ascii) : nat :=
  length (filter (fun d => ceqb d c = true) s).

(** Longest prefix of characters in the class, and what follows it. *)
Fixpoint span (p : ascii -> bool) (s : list ascii) : list ascii * list ascii :=
  match s with
  | [] => ([], [])
  | c :: r => if p c then let '(a, b) := span p r in (c :: a, b) else ([], s)
  end.

(** [s.rstrip(cs)]: drop the maximal run of trailing characters of the
    class. *)
Fixpoint rstrip (p : ascii -> bool) (s : list ascii) : list ascii :=
  match s with
  | [] => []
  | c :: r =>
      match rstrip p r with
      | [] => if p c then [] else [c]
      | r' => c :: r'
      end
  end.

(** The literal [lit] at the head of [s]: what follows it. *)
Fixpoint match_lit (lit s : list ascii) : option (list ascii) :=
  match lit, s with
  | [], _ => Some s
  | a :: lit', c :: s' => if ceqb a c then match_lit lit' s' else None
  | _ :: _, [] => None
  end.

(** The same under [re.IGNORECASE]. *)
Fixpoint match_lit_ci (lit s : list ascii) : option (list ascii) :=
  match lit, s with
  | [], _ => Some s
  | a :: lit', c :: s' =>
      if ceqb (lower_char a) (lower_char c) then match_lit_ci lit' s' else None
  | _ :: _, [] => None
  end.

(** [re.search]: is there a position at which the anchored matcher [m]
    succeeds.  The end of the string is a position too. *)
Fixpoint search (m : list ascii -> bool) (s : list ascii) : bool :=
  m s || match s with [] => false | _ :: r => search m r end.

(** [re.search] returning what the first (leftmost) match captured. *)
Fixpoint search_first {A} (m : list ascii -> option A) (s : list ascii) : option A :=
  match m s with
  | Some a => Some a
  | None => match s with [] => None | _ :: r => search_first m r end
  end.

(** [sub in s] *)
Definition contains (sub s : list ascii) : bool :=
  search (fun t => bool_decide (is_Some (match_lit sub t))) s.

(** Non-overlapping matches, left to right: [m] gives the captured value
    and the length of the whole match (at least one character); scanning
    resumes right after the match. *)
Fixpoint scan {A} (m : list ascii -> option (A * nat)) (skip : nat)
    (s : list ascii) : list A :=
  match s with
  | [] => []
  | _ :: r =>
      match skip with
      | S k => scan m k r
      | O =>
          match m s with
          | Some (a, n) => a :: scan m (Nat.pred n) r
          | None => scan m 0 r
          end
      end
  end.

Definition digit_value (c : ascii) : Z := Z.of_N (code c) - 48.

(** The interpreter's default limit on the number of digits [int]
    converts ([sys.get_int_max_str_digits()]). *)
Definition int_max_str_digits : nat := 4300.

(** [int(s)] on a string of decimal digits; [None] is [ValueError]: the
    string is empty, holds a character that is no digit, or has more
    digits than the limit. *)
Definition py_int (s : list ascii) : option Z :=
  match s with
  | [] => None
  | _ =>
      if forallb is_digit s && (length s <=? int_max_str_digits)%nat
      then Some (fold_left (fun acc c => 10 * acc + digit_value c) s 0)
      else None
  end.

(** [s.split(sep)] for a one-character separator. *)
Fixpoint split (sep : ascii) (s : list ascii) : list (list ascii) :=
  match s with
  | [] => [[]]
  | c :: r =>
      if ceqb c sep then [] :: split sep r
      else match split sep r with
           | [] => [[c]]
           | p :: ps => (c :: p) :: ps
           end
  end.

(** [str(n)] / [f"{n}"] for an integer. *)
Definition of_Z (n : Z) : string := NilZero.string_of_int (Z.to_int n).

End PyStr.

(** ** MD5 ([hashlib.md5], RFC 1321)

    The engine takes the digest function as a collaborator; this is the
    function it is run with. *)

Module MD5.

Definition w32 (x : Z) : Z := x mod 2 ^ 32.
Definition not32 (x : Z) : Z := Z.lxor x 0xffffffff.
Definition rotl (x c : Z) : Z :=
  w32 (Z.lor (Z.shiftl x c) (Z.shiftr x (32 - c))).

(** [floor(2^32 * abs(sin(i + 1)))] for [i] from 0 to 63. *)
Definition K : list Z :=
  [ 0xd76aa478; 0xe8c7b756; 0x242070db; 0xc1bdceee;
     0xf57c0faf; 0x4787c62a; 0xa8304613; 0xfd469501;
     0x698098d8; 0x8b44f7af; 0xffff5bb1; 0x895cd7be;
     0x6b901122; 0xfd987193; 0xa679438e; 0x49b40821;
     0xf61e2562; 0xc040b340; 0x265e5a51; 0xe9b6c7aa;
     0xd62f105d; 0x02441453; 0xd8a1e681; 0xe7d3fbc8;
     0x21e1cde6; 0xc33707d6; 0xf4d50d87; 0x455a14ed;
     0xa9e3e905; 0xfcefa3f8; 0x676f02d9; 0x8d2a4c8a;
     0xfffa3942; 0x8771f681; 0x6d9d6122; 0xfde5380c;
     0xa4beea44; 0x4bdecfa9; 0xf6bb4b60; 0xbebfbc70;
     0x289b7ec6; 0xeaa127fa; 0xd4ef3085; 0x04881d05;
     0xd9d4d039; 0xe6db99e5; 0x1fa27cf8; 0xc4ac5665;
     0xf4292244; 0x432aff97; 0xab9423a7; 0xfc93a039;
     0x655b59c3; 0x8f0ccc92; 0xffeff47d; 0x85845dd1;
     0x6fa87e4f; 0xfe2ce6e0; 0xa3014314; 0x4e0811a1;
     0xf7537e82; 0xbd3af235; 0x2ad7d2bb; 0xeb86d391 ].

(** Per-round shift amounts. *)
Definition shifts : list Z :=
  [ 7; 12; 17; 22; 7; 12; 17; 22; 7; 12; 17; 22; 7; 12; 17; 22;
    5; 9; 14; 20; 5; 9; 14; 20; 5; 9; 14; 20; 5; 9; 14; 20;
    4; 11; 16; 23; 4; 11; 16; 23; 4; 11; 16; 23; 4; 11; 16; 23;
    6; 10; 15; 21; 6; 10; 15; 21; 6; 10; 15; 21; 6; 10; 15; 21 ].

Definition state : Type := Z * Z * Z * Z.

Definition init : state := (0x67452301, 0xefcdab89, 0x98badcfe, 0x10325476).

(** One of the 64 operations on the block [m] of sixteen words. *)
Definition round (m : list Z) (st : state) (i : nat) : state :=
  let '(a, b, c, d) := st in
  let '(f, g) :=
    if (i <? 16)%nat then (Z.lor (Z.land b c) (Z.land (not32 b) d), i)
    else if (i <? 32)%nat then
      (Z.lor (Z.land d b) (Z.land (not32 d) c), ((5 * i + 1) mod 16)%nat)
    else if (i <? 48)%nat then
      (Z.lxor b (Z.lxor c d), ((3 * i + 5) mod 16)%nat)
    else (Z.lxor c (Z.lor b (not32 d)), ((7 * i) mod 16)%nat) in
  let f := w32 (f + a + nth i K 0 + nth g m 0) in
  (d, w32 (b + rotl f (nth i shifts 0)), b, c).

Definition block (st : state) (m : list Z) : state :=
  let '(a0, b0, c0, d0) := st in
  let '(a, b, c, d) := fold_left (round m) (seq 0 64) st in
  (w32 (a0 + a), w32 (b0 + b), w32 (c0 + c), w32 (d0 + d)).

(** [n] bytes of [x], least significant first. *)
Fixpoint le_bytes (n : nat) (x : Z) : list Z :=
  match n with
  | O => []
  | S n' => x mod 256 :: le_bytes n' (x / 256)
  end.

Fixpoint le_value (bs : list Z) : Z :=
  match bs with
  | [] => 0
  | b :: bs' => b + 256 * le_value bs'
  end.

(** The message, a 1 bit, zeros up to 56 modulo 64, and the bit length
    on 8 bytes. *)
Definition pad (msg : list Z) : list Z :=
  let len := Z.of_nat (length msg) in
  let zeros := Z.to_nat ((55 - len) mod 64) in
  msg ++ [0x80] ++ repeat 0 zeros ++ le_bytes 8 ((8 * len) mod 2 ^ 64).

(** Cut into groups of [n] items; [fuel] bounds the number of groups. *)
Fixpoint chunks {A} (n fuel : nat) (l : list A) : list (list A) :=
  match fuel, l with
  | O, _ | _, [] => []
  | S fuel', _ => firstn n l :: chunks n fuel' (skipn n l)
  end.

Definition words (blk : list Z) : list Z :=
  map le_value (chunks 4 16 blk).

Definition digest (msg : list Z) : list Z :=
  let p := pad msg in
  let '(a, b, c, d) :=
    fold_left block (map words (chunks 64 (length p) p)) init in
  le_bytes 4 a ++ le_bytes 4 b ++ le_bytes 4 c ++ le_bytes 4 d.

Definition hex_digit (n : Z) : ascii :=
  nth (Z.to_nat n) (list_ascii_of_string "0123456789abcdef") "0"%char.

Definition hex (bs : list Z) : string :=
  string_of_list_ascii
    (flat_map (fun b => [hex_digit (b / 16); hex_digit (b mod 16)]) bs).

(** [md5(s.encode()).hexdigest()] for a string of code points below 128. *)
Definition hexdigest (s : string) : string :=
  hex (digest (map (fun c => Z.of_N (N_of_ascii c)) (list_ascii_of_string s))).

End MD5.

(** ** URL extractor ([DownloadManager.extract_urls_from_text]) *)

Module Extractor.
Import PyStr.

(** One alternative of the group
    [(?:[a-zA-Z]|[0-9]|[$-_@.&+]|[!*\\(\\),]|(?:%[0-9a-fA-F][0-9a-fA-F]))],
    tried in order at the head of [s]: the number of characters the first
    alternative that matches consumes. *)
Definition url_alt (s : list ascii) : option nat :=
  match s with
  | [] => None
  | c :: r =>
      if is_alpha c then Some 1%nat
      else if is_digit c then Some 1%nat
      else if in_range "$" "_" c || one_of "@.&+" c then Some 1%nat
      else if one_of "!*\(\)," c then Some 1%nat
      else if ceqb c "%" then
        match r with
        | h1 :: h2 :: _ => if is_hex h1 && is_hex h2 then Some 3%nat else None
        | _ => None
        end
      else None
  end.

(** The greedy repetition [(...)+], which ends the pattern: the number of
    characters consumed ([skip] characters are already claimed by the
    alternative in progress). *)
Fixpoint url_body (skip : nat) (s : list ascii) : nat :=
  match s with
  | [] => 0%nat
  | _ :: r =>
      match skip with
      | S k => S (url_body k r)
      | O =>
          match url_alt s with
          | Some n => S (url_body (Nat.pred n) r)
          | None => 0%nat
          end
      end
  end.

(** What follows the scheme: ["://"] and a non-empty body. *)
Definition after_scheme (pre s : list ascii) : option (list ascii * nat) :=
  match match_lit (chars "://") s with
  | Some r =>
      match url_body 0 r with
      | O => None
      | n => Some (pre ++ chars "://" ++ take n r,
                   (length pre + 3 + n)%nat)
      end
  | None => None
  end.

(** The pattern [https?://(...)+] anchored at the head of [s]: the token
    and its length.  The optional [s] is tried first. *)
Definition url_pattern (s : list ascii) : option (list ascii * nat) :=
  match match_lit (chars "http") s with
  | Some r =>
      match
        match match_lit (chars "s") r with
        | Some r' => after_scheme (chars "https") r'
        | None => None
        end
      with
      | Some m => Some m
      | None => after_scheme (chars "http") r
      end
  | None => None
  end.

(** [url_pattern.finditer(text)], as the matched strings. *)
Definition finditer (text : list ascii) : list (list ascii) :=
  scan url_pattern 0 text.

(** [re.sub(r'[.,;:!?\s]+$', '', url)] *)
Definition strip_trailing_punct (url : list ascii) : list ascii :=
  rstrip (fun c => one_of ".,;:!?" c || is_space c) url.

(** The body of the first loop, for one match. *)
Definition clean_url (tok : list ascii) : list ascii :=
  let url := strip_trailing_punct tok in
  if (count "(" url <? count ")" url)%nat
  then rstrip (fun c => ceqb c ")") url
  else url.

(** The second loop: keep the first occurrence of each string.  [seen]
    is the set built so far. *)
Fixpoint unique_from (seen : gset string) (urls : list string) : list string :=
  match urls with
  | [] => []
  | url :: rest =>
      if bool_decide (url ∈ seen) then unique_from seen rest
      else url :: unique_from ({[url]} ∪ seen) rest
  end.

(** The list [urls] before de-duplication. *)
Definition captured_urls (text : string) : list string :=
  map (fun tok => str (clean_url tok)) (finditer (chars text)).

Definition extract_urls_from_text (text : string) : list string :=
  unique_from ∅ (captured_urls text).

End Extractor.

(** ** URL classifier ([DownloadManager.detect_url_type]) and the direct-link
       resolvers *)

Module Classifier.
Import PyStr.

(** The provider tags, under the names the source gives them. *)
Inductive UrlType :=
| bunnycdn | googledrive_file | googledrive_folder | googledocs
| dropbox | generic_media | unknown.

Global Instance UrlType_eq_dec : EqDecision UrlType.
Proof. solve_decision. Defined.

(** The tag as the string the source uses, for messages. *)
Definition url_type_name (t : UrlType) : string :=
  match t with
  | bunnycdn => "bunnycdn"
  | googledrive_file => "googledrive_file"
  | googledrive_folder => "googledrive_folder"
  | googledocs => "googledocs"
  | dropbox => "dropbox"
  | generic_media => "generic_media"
  | unknown => "unknown"
  end.

(** A non-empty greedy run [[class]+] at the head of [s]: the run and
    what follows.  Every use below is followed by a literal outside the
    class or by the end of the pattern, so giving characters back never
    helps. *)
Definition run1 (p : ascii -> bool) (s : list ascii)
    : option (list ascii * list ascii) :=
  match span p s with
  | ([], _) => None
  | m => Some m
  end.

(** [[a-zA-Z0-9_-]] *)
Definition is_id_char (c : ascii) : bool :=
  is_alpha c || is_digit c || one_of "_-" c.

(** [[a-f0-9\-]] *)
Definition is_guid_char (c : ascii) : bool :=
  in_range "a" "f" c || is_digit c || ceqb c "-".

(** [/embed/(\d+)/([a-f0-9\-]+)] anchored: groups 1 and 2. *)
Definition embed_pattern (s : list ascii) : option (list ascii * list ascii) :=
  r0 ← match_lit (chars "/embed/") s;
  '(g1, r1) ← run1 is_digit r0;
  r2 ← match_lit (chars "/") r1;
  '(g2, _) ← run1 is_guid_char r2;
  Some (g1, g2).

(** [https://drive\.google\.com/file/d/([a-zA-Z0-9_-]+)] anchored: group 1. *)
Definition googledrive_file_pattern (s : list ascii) : option (list ascii) :=
  r0 ← match_lit (chars "https://drive.google.com/file/d/") s;
  '(g1, _) ← run1 is_id_char r0;
  Some g1.

(** [https://drive\.google\.com/drive/folders/([a-zA-Z0-9_-]+)] *)
Definition googledrive_folder_pattern (s : list ascii) : option (list ascii) :=
  r0 ← match_lit (chars "https://drive.google.com/drive/folders/") s;
  '(g1, _) ← run1 is_id_char r0;
  Some g1.

(** An alternation of literals [(a|b|...)] followed by the rest [k] of the
    pattern: the first alternative with which the whole succeeds. *)
Fixpoint alt_lit {A} (ci : bool) (alts : list string)
    (k : list ascii -> list ascii -> option A) (s : list ascii) : option A :=
  match alts with
  | [] => None
  | a :: alts' =>
      match
        r ← (if ci then match_lit_ci else match_lit) (chars a) s;
        k (take (length (chars a)) s) r
      with
      | Some x => Some x
      | None => alt_lit ci alts' k s
      end
  end.

(** [https://docs\.google\.com/(document|spreadsheets|presentation)/d/([a-zA-Z0-9_-]+)]
    anchored: groups 1 and 2. *)
Definition googledocs_pattern (s : list ascii) : option (list ascii * list ascii) :=
  r0 ← match_lit (chars "https://docs.google.com/") s;
  alt_lit false ["document"; "spreadsheets"; "presentation"]
    (fun g1 r1 =>
       r2 ← match_lit (chars "/d/") r1;
       '(g2, _) ← run1 is_id_char r2;
       Some (g1, g2))
    r0.

(** The lazy [.*?] followed by the rest [k] of the pattern: the shortest
    stretch without a newline after which [k] succeeds. *)
Fixpoint lazy_dots (k : list ascii -> bool) (s : list ascii) : bool :=
  k s ||
  match s with
  | [] => false
  | c :: r => if ceqb c "010" then false else lazy_dots k r
  end.

Definition media_extensions : list string :=
  ["mp4"; "mp3"; "pdf"; "zip"; "mov"; "avi"; "mkv"; "doc"; "docx"; "xls"; "xlsx"].

(** [https?://.*?\.(mp4|mp3|...|xlsx)] with [re.IGNORECASE], anchored. *)
Definition generic_media_pattern (s : list ascii) : bool :=
  match match_lit_ci (chars "http") s with
  | None => false
  | Some r =>
      let tail (t : list ascii) : bool :=
        match match_lit (chars "://") t with
        | None => false
        | Some u =>
            lazy_dots
              (fun v =>
                 match match_lit (chars ".") v with
                 | None => false
                 | Some x =>
                     bool_decide (is_Some
                       (alt_lit true media_extensions (fun _ _ => Some tt) x))
                 end)
              u
        end in
      match match_lit_ci (chars "s") r with
      | Some r' => tail r' || tail r
      | None => tail r
      end
  end.

Definition matches {A} (m : list ascii -> option A) (url : string) : bool :=
  bool_decide (is_Some (search_first m (chars url))).

Definition detect_url_type (url : string) : UrlType * bool :=
  if contains (chars "iframe.mediadelivery.net/embed/") (chars url) then
    match search_first embed_pattern (chars url) with
    | Some (_, _ :: _) => (bunnycdn, true)
    | _ => (bunnycdn, false)
    end
  else if matches googledrive_file_pattern url then (googledrive_file, true)
  else if matches googledrive_folder_pattern url then (googledrive_folder, true)
  else if matches googledocs_pattern url then (googledocs, true)
  else if contains (chars "dropbox") (lower (chars url)) then (dropbox, true)
  else if search generic_media_pattern (chars url) then (generic_media, true)
  else (unknown, false).

Definition get_google_drive_direct_link (url : string) : option (string * string) :=
  match search_first googledrive_file_pattern (chars url) with
  | Some file_id =>
      Some ("https://drive.google.com/uc?export=download&id=" +:+ str file_id,
            str file_id)
  | None => None
  end.

(** The table [export_formats]: document type, then the formats it can be
    exported to. *)
Definition export_formats : list (string * list (string * string)) :=
  [ ("document", [("pdf", "pdf"); ("docx", "docx"); ("txt", "txt"); ("html", "html")]);
    ("spreadsheets", [("pdf", "pdf"); ("xlsx", "xlsx"); ("csv", "csv")]);
    ("presentation", [("pdf", "pdf"); ("pptx", "pptx")]) ].

(** [k in d] and [d[k]] on a dict literal. *)
Fixpoint dict_get {V} (d : list (string * V)) (k : string) : option V :=
  match d with
  | [] => None
  | (k', v) :: d' => if String.eqb k' k then Some v else dict_get d' k
  end.

Definition supported (doc_type export_format : string) : bool :=
  match dict_get export_formats doc_type with
  | Some formats => bool_decide (is_Some (dict_get formats export_format))
  | None => false
  end.

(** The pair [(link, doc_id)], or [None] for [(None, None)]. *)
Definition get_google_docs_export_link (url export_format : string)
    : option (string * string) :=
  match search_first googledocs_pattern (chars url) with
  | Some (g1, g2) =>
      let doc_type := str g1 in
      let doc_id := str g2 in
      if supported doc_type export_format then
        if String.eqb doc_type "spreadsheets" then
          Some ("https://docs.google.com/spreadsheets/d/" +:+ doc_id
                  +:+ "/export?format=" +:+ export_format, doc_id)
        else
          Some ("https://docs.google.com/" +:+ doc_type +:+ "/d/" +:+ doc_id
                  +:+ "/export?format=" +:+ export_format, doc_id)
      else None
  | None => None
  end.

End Classifier.

(** ** The world the program acts on *)

(** Exceptions, by class, with the text [str(e)] gives. *)
Inductive exn :=
| Exception (msg : string)
| TypeError (msg : string)
| ValueError (msg : string)
| LibraryError (cls msg : string).

Definition exn_str (e : exn) : string :=
  match e with
  | Exception m | TypeError m | ValueError m | LibraryError _ m => m
  end.

Inductive Result (A : Type) :=
| Ok (a : A)
| Raise (e : exn).
Arguments Ok {A} a.
Arguments Raise {A} e.

(** [self.config], with the keys of [DEFAULT_CONFIG]. *)
Record Config := {
  max_parallel_downloads : Z;
  retry_attempts : Z;
  retry_delay : Z;
  preferred_quality : string;
  download_subtitles : bool;
  skip_existing : bool;
  create_info_json : bool;
  output_format : string;
  google_docs_format : string
}.

Definition DEFAULT_CONFIG : Config := {|
  max_parallel_downloads := 3;
  retry_attempts := 3;
  retry_delay := 5;
  preferred_quality := "highest";
  download_subtitles := true;
  skip_existing := true;
  create_info_json := false;
  output_format := "{title}.mp4";
  google_docs_format := "pdf"
|}.

(** A value of [self.history].  A ledger read back from disk may lack keys,
    hence the options; [timestamp] is the clock reading that
    [datetime.now()] renders. *)
Record HistoryRecord := {
  rec_filename : option string;
  rec_status : option string;
  rec_timestamp : option Z;
  rec_folder : option string
}.

Global Instance HistoryRecord_eq_dec : EqDecision HistoryRecord.
Proof. solve_decision. Defined.

(** The progress events of [emit_progress], [emit_complete], [emit_error]. *)
Inductive ProgressEvent :=
| EvProgress (file : string) (percent : Z) (speed eta : string)
| EvComplete (file path : string)
| EvError (file error : string).

(** What the process writes to standard output: a console line, or one
    JSON object of the event stream. *)
Inductive Output :=
| Console (line : string)
| Json (ev : ProgressEvent).

Record Request := {
  rq_url : string;
  rq_params : list (string * string)
}.

Record Response := {
  status_code : Z;
  text : string;
  headers : list (string * string)
}.

Record World := {
  config : Config;
  JSON_PROGRESS : bool;
  history : gmap string HistoryRecord;
  (** what [bunny_downloader_config.json] holds once the missing keys are
      filled in; [None] when absent or unreadable *)
  config_file : option Config;
  (** what [download_history.json] holds; [None] when absent or malformed *)
  history_file : option (gmap string HistoryRecord);
  history_file_writable : bool;
  stdout : list Output;
  (** every request sent through [self.session], oldest first *)
  requests : list Request;
  (** every [time.sleep], oldest first *)
  sleeps : list Z;
  clock : Z
}.

Definition set_config (c : Config) (w : World) : World :=
  {| config := c; JSON_PROGRESS := JSON_PROGRESS w; history := history w;
     config_file := config_file w; history_file := history_file w;
     history_file_writable := history_file_writable w; stdout := stdout w;
     requests := requests w; sleeps := sleeps w; clock := clock w |}.

Definition set_JSON_PROGRESS (b : bool) (w : World) : World :=
  {| config := config w; JSON_PROGRESS := b; history := history w;
     config_file := config_file w; history_file := history_file w;
     history_file_writable := history_file_writable w; stdout := stdout w;
     requests := requests w; sleeps := sleeps w; clock := clock w |}.

Definition set_history (h : gmap string HistoryRecord) (w : World) : World :=
  {| config := config w; JSON_PROGRESS := JSON_PROGRESS w; history := h;
     config_file := config_file w; history_file := history_file w;
     history_file_writable := history_file_writable w; stdout := stdout w;
     requests := requests w; sleeps := sleeps w; clock := clock w |}.

Definition set_history_file (h : option (gmap string HistoryRecord)) (w : World)
    : World :=
  {| config := config w; JSON_PROGRESS := JSON_PROGRESS w; history := history w;
     config_file := config_file w; history_file := h;
     history_file_writable := history_file_writable w; stdout := stdout w;
     requests := requests w; sleeps := sleeps w; clock := clock w |}.

Definition set_stdout (o : list Output) (w : World) : World :=
  {| config := config w; JSON_PROGRESS := JSON_PROGRESS w; history := history w;
     config_file := config_file w; history_file := history_file w;
     history_file_writable := history_file_writable w; stdout := o;
     requests := requests w; sleeps := sleeps w; clock := clock w |}.

Definition set_requests (r : list Request) (w : World) : World :=
  {| config := config w; JSON_PROGRESS := JSON_PROGRESS w; history := history w;
     config_file := config_file w; history_file := history_file w;
     history_file_writable := history_file_writable w; stdout := stdout w;
     requests := r; sleeps := sleeps w; clock := clock w |}.

(** Time passes while sleeping: the sleep log and the clock move together. *)
Definition set_sleeps (s : list Z) (t : Z) (w : World) : World :=
  {| config := config w; JSON_PROGRESS := JSON_PROGRESS w; history := history w;
     config_file := config_file w; history_file := history_file w;
     history_file_writable := history_file_writable w; stdout := stdout w;
     requests := requests w; sleeps := s; clock := t |}.

(** ** Computations: state passing with exceptions *)

Definition M (A : Type) : Type := World -> Result A * World.

Definition ret {A} (a : A) : M A := fun w => (Ok a, w).

Definition raise {A} (e : exn) : M A := fun w => (Raise e, w).

Definition bind {A B} (m : M A) (k : A -> M B) : M B :=
  fun w =>
    match m w with
    | (Ok a, w') => k a w'
    | (Raise e, w') => (Raise e, w')
    end.

(** [try: m  except Exception as e: h e] *)
Definition try_except {A} (m : M A) (h : exn -> M A) : M A :=
  fun w =>
    match m w with
    | (Ok a, w') => (Ok a, w')
    | (Raise e, w') => h e w'
    end.

(** Read the world. *)
Definition gets {A} (f : World -> A) : M A := fun w => (Ok (f w), w).

(** Change the world. *)
Definition modify (f : World -> World) : M unit := fun w => (Ok tt, f w).

Declare Scope py_scope.
Delimit Scope py_scope with py.
Notation "x <- m ;; k" := (bind m (fun x => k))
  (at level 100, m at next level, right associativity) : py_scope.
Notation "m ;; k" := (bind m (fun _ => k))
  (at level 100, right associativity) : py_scope.
Local Open Scope py_scope.

(** [if c: m] *)
Definition when (c : bool) (m : M unit) : M unit := if c then m else ret tt.

(** [print(line)], only outside JSON mode: every [print] of the source sits
    under [if not JSON_PROGRESS].  The line is the text between the colour
    codes of [Fore] and [Style], which are empty without colorama. *)
Definition console (line : string) : M unit :=
  fun w =>
    if JSON_PROGRESS w then (Ok tt, w)
    else (Ok tt, set_stdout (stdout w ++ [Console line]) w).

(** The three [emit_*] functions: one JSON line, only in JSON mode. *)
Definition emit (ev : ProgressEvent) : M unit :=
  fun w =>
    if JSON_PROGRESS w then (Ok tt, set_stdout (stdout w ++ [Json ev]) w)
    else (Ok tt, w).

Definition emit_progress (file : string) (percent : Z) (speed eta : string) : M unit :=
  emit (EvProgress file percent speed eta).
Definition emit_complete (file path : string) : M unit :=
  emit (EvComplete file path).
Definition emit_error (file error : string) : M unit :=
  emit (EvError file error).

(** The longest sleep, in whole seconds, that fits the signed 64-bit
    count of nanoseconds [time.sleep] converts its argument to. *)
Definition max_sleep : Z := 9223372036.

(** [time.sleep(seconds)] for a whole number of seconds: a length that
    does not fit the nanosecond count is an [OverflowError], a negative
    length a [ValueError]. *)
Definition time_sleep (seconds : Z) : M unit :=
  fun w =>
    if (seconds <? - max_sleep) || (max_sleep <? seconds)
    then (Raise (LibraryError "OverflowError"
                   "timestamp too large to convert to C _PyTime_t"), w)
    else if seconds <? 0
    then (Raise (ValueError "sleep length must be non-negative"), w)
    else (Ok tt, set_sleeps (sleeps w ++ [seconds]) (clock w + seconds) w).

(** [range(n)] *)
Definition range (n : Z) : list Z := map Z.of_nat (seq 0 (Z.to_nat n)).

(** ** History ledger *)

Definition save_history : M unit :=
  modify (fun w =>
    if history_file_writable w then set_history_file (Some (history w)) w else w).

Definition is_downloaded (url : string) : M bool :=
  gets (fun w =>
    skip_existing (config w) &&
    match history w !! url with
    | Some r => bool_decide (rec_status r = Some "completed")
    | None => false
    end).

Definition mark_downloaded (url filename status : string) (folder : option string)
    : M unit :=
  modify (fun w =>
    set_history
      (<[url := {| rec_filename := Some filename;
                   rec_status := Some status;
                   rec_timestamp := Some (clock w);
                   rec_folder := folder |}]> (history w)) w) ;;
  save_history.

(** ** Retry executor ([DownloadManager.download_with_retry]) *)

(** The body of [if attempt < retry_attempts - 1:]. *)
Definition backoff (attempt : Z) : M unit :=
  retry_delay <- gets (fun w => retry_delay (config w)) ;;
  let wait_time := retry_delay * (attempt + 1) in
  console ("[RETRY] Attempt " +:+ PyStr.of_Z (attempt + 1)
             +:+ " failed, waiting " +:+ PyStr.of_Z wait_time +:+ "s...") ;;
  time_sleep wait_time.

(** The [for] loop over the attempt numbers still to run, and the
    [raise last_error] after it.  Raising [None] is a [TypeError]. *)
Fixpoint retry_loop {A} (download_func : M A) (attempts : list Z)
    (last_error : option exn) : M A :=
  match attempts with
  | [] =>
      match last_error with
      | Some e => raise e
      | None => raise (TypeError "exceptions must derive from BaseException")
      end
  | attempt :: rest =>
      try_except download_func (fun e =>
        n <- gets (fun w => retry_attempts (config w)) ;;
        when (attempt <? n - 1) (backoff attempt) ;;
        retry_loop download_func rest (Some e))
  end.


Definition download_with_retry {A} (download_func : M A) : M A :=
  n <- gets (fun w => retry_attempts (config w)) ;;
  retry_loop download_func (range n) None.

(** ** External collaborators

    The remote servers, the libraries and the provider downloaders whose
    body is streaming I/O.  They are what the engine is parameterised by;
    a downloader is any computation that returns a file name or raises. *)

(** [info]: the metadata of an embed page. *)
Record VideoInfo := {
  title : option string;
  duration : option Z;
  upload_date : option string;
  description : option string;
  thumbnail : option string
}.

Class Collaborators := {
  (** the remote end: the outcome of a request, given those sent before *)
  http_reply : list Request -> Request -> Result Response;
  (** the text of the [HTTPError] of [raise_for_status] *)
  http_error_message : Response -> string;
  (** [md5(s.encode()).hexdigest()] *)
  md5_hexdigest : string -> string;
  os_path_join : string -> string -> string;
  (** [os.makedirs(path, exist_ok=True)] *)
  os_makedirs : string -> M unit;
  (** the text of a regular file, [None] when [os.path.isfile] is false *)
  read_text_file : string -> option string;
  HAS_YT_DLP : bool;
  (** [urlparse(url).path] *)
  urlparse_path : string -> string;
  extract_video_info : string -> string -> VideoInfo;
  (** [format_filename(info, embed_url)] *)
  format_filename : VideoInfo -> string -> M string;
  (** [yt_dlp.YoutubeDL(opts).download([url])] with the DRM headers:
      url, referer, output path, file name *)
  ydl_download : string -> string -> string -> string -> M unit;
  download_google_drive_file : string -> string -> M string;
  download_dropbox_file : string -> string -> M string;
  download_generic_file : string -> string -> M string;
  download_non_drm_video : string -> string -> VideoInfo -> string -> M string;
  (** [download_google_docs] from the file name on: response, doc id,
      format, destination *)
  save_google_docs_export : Response -> string -> string -> string -> M string;
  (** the [[OK] ... MB] line of [download_bunnycdn_video], printed when the
      file exists: path, file name *)
  report_file_size : string -> string -> M unit
}.

Section Engine.
Context {collab : Collaborators}.
Import PyStr Classifier.

(** [self.session.get(url, params=params)] *)
Definition session_get (url : string) (params : list (string * string))
    : M Response :=
  fun w =>
    let rq := {| rq_url := url; rq_params := params |} in
    let w' := set_requests (requests w ++ [rq]) w in
    match http_reply (requests w) rq with
    | Ok r => (Ok r, w')
    | Raise e => (Raise e, w')
    end.

(** [response.raise_for_status()] *)
Definition raise_for_status (response : Response) : M unit :=
  if (400 <=? status_code response) && (status_code response <? 600)
  then raise (LibraryError "HTTPError" (http_error_message response))
  else ret tt.

(** *** Google Docs export *)

Definition download_google_docs (url dest_folder export_format : string)
    : M string :=
  match get_google_docs_export_link url export_format with
  | None => raise (Exception "Invalid Google Docs URL")
  | Some (export_link, doc_id) =>
      console ("[INFO] Downloading Google Docs: " +:+ doc_id +:+ " as "
                 +:+ export_format) ;;
      response <- session_get export_link [] ;;
      raise_for_status response ;;
      save_google_docs_export response doc_id export_format dest_folder
  end.

(** *** DRM video *)

(** The string whose digest signs a ping. *)
Definition ping_message (secret context_id : string) (time_val : Z)
    (paused res : string) : string :=
  secret +:+ "_" +:+ context_id +:+ "_" +:+ of_Z time_val
    +:+ "_" +:+ paused +:+ "_" +:+ res.

(** The inner function [ping] of [_drm_auth], with the variables it
    closes over. *)
Definition ping (server_id context_id secret : string) (time_val : Z)
    (paused res : string) : M unit :=
  let md5_hash := md5_hexdigest (ping_message secret context_id time_val paused res) in
  let params := [("hash", md5_hash); ("time", of_Z time_val);
                 ("paused", paused); ("chosen_res", res)] in
  session_get ("https://video-" +:+ server_id +:+ ".mediadelivery.net/.drm/"
                 +:+ context_id +:+ "/ping") params ;;
  ret tt.

Definition _drm_auth (server_id context_id secret guid : string) : M unit :=
  ping server_id context_id secret 0 "true" "0" ;;
  session_get ("https://video-" +:+ server_id +:+ ".mediadelivery.net/.drm/"
                 +:+ context_id +:+ "/activate") [] ;;
  ret tt.

(** [(\d+x\d+)/video\.drm] anchored: group 1 and the length of the match. *)
Definition resolution_pattern (s : list ascii) : option (list ascii * nat) :=
  '(width, r1) ← run1 is_digit s;
  r2 ← match_lit (chars "x") r1;
  '(height, r3) ← run1 is_digit r2;
  _ ← match_lit (chars "/video.drm") r3;
  Some (width ++ chars "x" ++ height,
        (length width + 1 + length height + 10)%nat).

(** [re.findall(r'(\d+x\d+)/video\.drm', text)] *)
Definition find_resolutions (body : string) : list (list ascii) :=
  scan resolution_pattern 0 (chars body).

(** The text of the [ValueError] of [int(h)]: over the limit of digits
    for a string of digits, an invalid literal otherwise. *)
Definition int_error (h : list ascii) : string :=
  if forallb is_digit h && negb (length h <=? int_max_str_digits)%nat
  then "Exceeds the limit (4300 digits) for integer string conversion: value has "
         +:+ of_Z (Z.of_nat (length h))
         +:+ " digits; use sys.set_int_max_str_digits() to increase the limit"
  else "invalid literal for int() with base 10".

(** [lambda x: int(x.split('x')[1])] *)
Definition height_key (x : list ascii) : Result Z :=
  match split "x" x !! 1%nat with
  | None => Raise (LibraryError "IndexError" "list index out of range")
  | Some h =>
      match py_int h with
      | Some n => Ok n
      | None => Raise (ValueError (int_error h))
      end
  end.

(** The keys of all elements, computed before any comparison; the first
    failure is raised. *)
Fixpoint decorate {A} (key : A -> Result Z) (l : list A) : Result (list (Z * A)) :=
  match l with
  | [] => Ok []
  | x :: l' =>
      match key x with
      | Raise e => Raise e
      | Ok k =>
          match decorate key l' with
          | Raise e => Raise e
          | Ok d => Ok ((k, x) :: d)
          end
      end
  end.

(** Insertion before the first element whose key is not larger: with
    [foldr] this is a stable sort by decreasing key. *)
Fixpoint insert_desc {A} (x : Z * A) (l : list (Z * A)) : list (Z * A) :=
  match l with
  | [] => [x]
  | y :: l' => if x.1 <? y.1 then y :: insert_desc x l' else x :: y :: l'
  end.

(** [sorted(l, key=key, reverse=True)] *)
Definition sorted_reverse {A} (key : A -> Result Z) (l : list A) : Result (list A) :=
  match decorate key l with
  | Raise e => Raise e
  | Ok d => Ok (map snd (foldr insert_desc [] d))
  end.

Definition _get_best_resolution (guid context_id secret : string) : M string :=
  response <- session_get
    ("https://iframe.mediadelivery.net/" +:+ guid +:+ "/playlist.drm")
    [("contextId", context_id); ("secret", secret)] ;;
  match find_resolutions (text response) with
  | [] => raise (Exception "No resolutions found")
  | resolutions =>
      match sorted_reverse height_key resolutions with
      | Raise e => raise e
      | Ok [] => raise (LibraryError "IndexError" "list index out of range")
      | Ok (best :: _) => ret (str best)
      end
  end.

(** [contextId=([\w-]+)&amp;secret=([\w-]+)] and the same with a raw [&],
    anchored: groups 1 and 2. *)
Definition is_token_char (c : ascii) : bool := is_word c || ceqb c "-".

Definition drm_params_pattern (amp : string) (s : list ascii)
    : option (list ascii * list ascii) :=
  r0 ← match_lit (chars "contextId=") s;
  '(g1, r1) ← run1 is_token_char r0;
  r2 ← match_lit (chars amp ++ chars "secret=") r1;
  '(g2, _) ← run1 is_token_char r2;
  Some (g1, g2).

Definition found {A} (m : list ascii -> option A) (page : string) : bool :=
  bool_decide (is_Some (search_first m (chars page))).

Definition check_for_drm (embed_page : string) : bool :=
  found (drm_params_pattern "&amp;") embed_page
  || found (drm_params_pattern "&") embed_page
  || contains (chars ".drm/") (chars embed_page)
  || contains (chars "playlist.drm") (chars embed_page).

(** The lazy capture [(.*?)] followed by the literal [lit]: the shortest
    stretch without a newline that [lit] follows. *)
Fixpoint lazy_capture (lit s : list ascii) : option (list ascii) :=
  match match_lit lit s with
  | Some _ => Some []
  | None =>
      match s with
      | [] => None
      | c :: r =>
          if ceqb c "010" then None
          else g ← lazy_capture lit r; Some (c :: g)
      end
  end.

(** [https://video-(.*?)\.mediadelivery\.net] anchored: group 1. *)
Definition server_pattern (s : list ascii) : option (list ascii) :=
  r0 ← match_lit (chars "https://video-") s;
  lazy_capture (chars ".mediadelivery.net") r0.

(** [xs[-1]] *)
Definition last_item (xs : list (list ascii)) : list ascii := List.last xs [].

(** [xs[0]] of a list that [split] returned, which is never empty. *)
Definition first_item (xs : list (list ascii)) : list ascii := List.hd [] xs.

(** [urlparse(embed_url).path.split("/")[-1].split("?")[0]] *)
Definition embed_guid (embed_url : string) : string :=
  str (first_item (split "?" (last_item (split "/" (chars (urlparse_path embed_url)))))).

Definition download_drm_video (embed_url embed_page : string) (info : VideoInfo)
    (dest_folder : string) : M string :=
  if negb HAS_YT_DLP then raise (Exception "yt-dlp is required for DRM videos")
  else
    let guid := embed_guid embed_url in
    match search_first server_pattern (chars embed_page) with
    | None => raise (Exception "Could not find server ID")
    | Some server_id =>
        let params :=
          match search_first (drm_params_pattern "&amp;") (chars embed_page) with
          | Some m => Some m
          | None => search_first (drm_params_pattern "&") (chars embed_page)
          end in
        match params with
        | Some (c :: cs, x :: xs) =>
            let context_id := str (c :: cs) in
            let secret := str (x :: xs) in
            _drm_auth (str server_id) context_id secret guid ;;
            resolution <- _get_best_resolution guid context_id secret ;;
            let url := "https://iframe.mediadelivery.net/" +:+ guid +:+ "/"
                         +:+ resolution +:+ "/video.drm?contextId=" +:+ context_id in
            filename <- format_filename info embed_url ;;
            let output_path := os_path_join dest_folder filename in
            ydl_download url embed_url output_path filename ;;
            emit_complete filename output_path ;;
            ret filename
        | _ => raise (Exception "Could not find DRM parameters")
        end
    end.

(** *** Dispatcher *)

(** The [except Exception as e:] clause shared by [download_video] and
    [download_bunnycdn_video]. *)
Definition record_failure (url dest_folder : string) (e : exn) : M bool :=
  console ("[ERROR] Failed to download " +:+ url +:+ ": " +:+ exn_str e) ;;
  emit_error url (exn_str e) ;;
  mark_downloaded url (exn_str e) "failed" (Some dest_folder) ;;
  ret false.

(** [f"{info.get('title', 'Unknown')}"]: the key is always present, and an
    absent title prints as [None]. *)
Definition title_text (info : VideoInfo) : string :=
  match title info with Some t => t | None => "None" end.

Definition download_bunnycdn_video (embed_url dest_folder : string) : M bool :=
  try_except
    (response <- session_get embed_url [] ;;
     raise_for_status response ;;
     let embed_page := text response in
     let info := extract_video_info embed_url embed_page in
     let is_drm := check_for_drm embed_page in
     console ("[INFO] Title: " +:+ title_text info) ;;
     console ("[INFO] DRM: " +:+ (if is_drm then "Yes" else "No")) ;;
     filename <-
       (if is_drm
        then download_with_retry
               (download_drm_video embed_url embed_page info dest_folder)
        else download_with_retry
               (download_non_drm_video embed_url embed_page info dest_folder)) ;;
     mark_downloaded embed_url filename "completed" (Some dest_folder) ;;
     report_file_size (os_path_join dest_folder filename) filename ;;
     ret true)
    (record_failure embed_url dest_folder).

(** The four branches that wrap a downloader in the retry executor. *)
Definition fetch_and_mark (url dest_folder : string) (download_func : M string)
    : M bool :=
  filename <- download_with_retry download_func ;;
  mark_downloaded url filename "completed" (Some dest_folder) ;;
  console ("[OK] Downloaded: " +:+ filename) ;;
  ret true.

(** [self.history[url].get('filename', 'Unknown')] *)
Definition recorded_filename (url : string) : M string :=
  fun w =>
    match history w !! url with
    | Some r => (Ok (default "Unknown" (rec_filename r)), w)
    | None => (Raise (LibraryError "KeyError" url), w)
    end.

Definition download_video (url dest_folder : string) : M bool :=
  let '(url_type, is_valid) := detect_url_type url in
  if negb is_valid && negb (bool_decide (url_type = unknown)) then
    console ("[SKIP] Invalid " +:+ url_type_name url_type +:+ " URL: " +:+ url) ;;
    emit_error url ("Invalid " +:+ url_type_name url_type +:+ " URL") ;;
    ret false
  else
    done <- is_downloaded url ;;
    if done then
      filename <- recorded_filename url ;;
      console ("[SKIP] Already downloaded: " +:+ filename) ;;
      emit_complete filename (os_path_join dest_folder filename) ;;
      ret true
    else
      try_except
        match url_type with
        | bunnycdn => download_bunnycdn_video url dest_folder
        | googledrive_file =>
            fetch_and_mark url dest_folder (download_google_drive_file url dest_folder)
        | googledocs =>
            export_format <- gets (fun w => google_docs_format (config w)) ;;
            fetch_and_mark url dest_folder
              (download_google_docs url dest_folder export_format)
        | dropbox =>
            fetch_and_mark url dest_folder (download_dropbox_file url dest_folder)
        | googledrive_folder =>
            console "[INFO] Google Drive folders not supported yet" ;;
            emit_error url "Google Drive folders not supported" ;;
            ret false
        | generic_media =>
            fetch_and_mark url dest_folder (download_generic_file url dest_folder)
        | unknown =>
            console ("[SKIP] Unsupported URL type: " +:+ url) ;;
            emit_error url "Unsupported URL type" ;;
            ret false
        end
        (record_failure url dest_folder).

(** *** The batch ([main]) *)

(** The parsed command line. *)
Record Args := {
  arg_url : option string;
  arg_input : option string;
  arg_output : string;
  arg_parallel : Z;
  arg_quality : string;
  arg_skip_existing : bool;
  arg_subtitles : bool;
  arg_docs_format : string;
  arg_json_progress : bool
}.

(** [DownloadManager()]: configuration and ledger come from disk. *)
Definition DownloadManager_init : M unit :=
  modify (fun w =>
    set_history (default ∅ (history_file w))
      (set_config (default DEFAULT_CONFIG (config_file w)) w)).

(** The four assignments to [manager.config]. *)
Definition apply_args (args : Args) (c : Config) : Config :=
  {| max_parallel_downloads := max_parallel_downloads c;
     retry_attempts := retry_attempts c;
     retry_delay := retry_delay c;
     preferred_quality := arg_quality args;
     download_subtitles := arg_subtitles args;
     skip_existing := arg_skip_existing args;
     create_info_json := create_info_json c;
     output_format := output_format c;
     google_docs_format := arg_docs_format args |}.

(** A string option that is neither [None] nor empty. *)
Definition truthy (o : option string) : option string :=
  match o with
  | Some "" => None
  | _ => o
  end.

(** "Determine URLs to download": the list, or [None] for the
    [sys.exit(1)] of the last branch. *)
Definition requested_urls (args : Args) : option (list string) :=
  match truthy (arg_url args) with
  | Some url => Some [url]
  | None =>
      match truthy (arg_input args) with
      | Some path =>
          match read_text_file path with
          | Some content => Some (Extractor.extract_urls_from_text content)
          | None => None
          end
      | None => None
      end
  end.

(** The download loop with its two counters. *)
Fixpoint download_all (urls : list string) (output : string)
    (successful failed : Z) : M (Z * Z) :=
  match urls with
  | [] => ret (successful, failed)
  | url :: rest =>
      ok <- download_video url output ;;
      if ok : bool then download_all rest output (successful + 1) failed
      else download_all rest output successful (failed + 1)
  end.

(** [main] up to "Determine URLs to download". *)
Definition setup (args : Args) : M unit :=
  modify (set_JSON_PROGRESS (arg_json_progress args)) ;;
  os_makedirs (arg_output args) ;;
  DownloadManager_init ;;
  modify (fun w => set_config (apply_args args (config w)) w).

(** [main], returning the argument of [sys.exit]. *)
Definition main (args : Args) : M Z :=
  setup args ;;
  match requested_urls args with
  | None =>
      console "Error: Either --url or --input must be provided" ;;
      ret 1
  | Some [] =>
      console "No valid URLs found" ;;
      ret 1
  | Some urls =>
      counts <- download_all urls (arg_output args) 0 0 ;;
      let '(successful, failed) := counts in
      console (String "010" "Completed: " +:+ of_Z successful +:+ " success, "
                 +:+ of_Z failed +:+ " failed") ;;
      ret (if failed =? 0 then 0 else 1)
  end.

(** The exit status of the process: that of [sys.exit], and 1 when an
    exception reaches the top level. *)
Definition exit_status (args : Args) (w : World) : Z :=
  match main args w with
  | (Ok code, _) => code
  | (Raise _, _) => 1
  end.

End Engine.

(** ** File names ([sanitize_filename], [format_filename]) *)

Module Naming.
Import PyStr.

(** The nine characters of [invalid_chars]: less-than, greater-than, colon,
    double quote (character 34), bar, question mark, star, backslash and
    slash. *)
Definition invalid_chars : list ascii :=
  chars "<>:" ++ ["034"%char] ++ chars "|?*\/".

Definition is_invalid (c : ascii) : bool := existsb (ceqb c) invalid_chars.

(** [s.replace(c, '_')] for a one-character [c]. *)
Definition replace_char (c : ascii) (s : list ascii) : list ascii :=
  map (fun d => if ceqb d c then "_"%char else d) s.

(** The loop [for char in invalid_chars]. *)
Definition replace_invalid (filename : list ascii) : list ascii :=
  fold_left (fun acc c => replace_char c acc) invalid_chars filename.

(** [s.lstrip(cs)] and [s.strip(cs)] *)
Definition lstrip (p : ascii -> bool) (s : list ascii) : list ascii :=
  (span p s).2.

Definition strip (p : ascii -> bool) (s : list ascii) : list ascii :=
  rstrip p (lstrip p s).

(** [s.rfind(c)]: the index of the last occurrence, -1 without one. *)
Fixpoint rfind (c : ascii) (s : list ascii) : Z :=
  match s with
  | [] => -1
  | d :: r =>
      let i := rfind c r in
      if 0 <=? i then i + 1 else if ceqb d c then 0 else -1
  end.

(** [os.path.splitext(p)], as [genericpath._splitext] computes it with the
    separator [/]: the extension starts at the last dot, unless that dot
    comes before the last separator or only dots lie between the two.  The
    one call of the source passes a string in which the separators of both
    POSIX and Windows have been replaced. *)
Definition splitext (p : list ascii) : list ascii * list ascii :=
  let sepIndex := rfind "/" p in
  let dotIndex := rfind "." p in
  if sepIndex <? dotIndex then
    let between :=
      take (Z.to_nat (dotIndex - (sepIndex + 1))) (drop (Z.to_nat (sepIndex + 1)) p) in
    if forallb (fun d => ceqb d ".") between then (p, [])
    else (take (Z.to_nat dotIndex) p, drop (Z.to_nat dotIndex) p)
  else (p, []).

Definition sanitize_filename (filename : list ascii) : list ascii :=
  let filename := replace_invalid filename in
  let filename := strip (one_of ". ") filename in
  let '(name, ext) := splitext filename in
  let name := if (200 <? length name)%nat then take 200 name else name in
  name ++ ext.

(** [s.endswith(suffix)] *)
Definition endswith (suffix s : list ascii) : bool :=
  bool_decide (drop (length s - length suffix) s = suffix).

(** [format_filename(info, embed_url)], from its second statement on:
    [guid] is the value of the first.  [info] always holds the key
    [title], so [info.get('title', guid)] is the title, [None] included,
    and calling [endswith] on [None] is an [AttributeError]. *)
Definition format_filename (info : VideoInfo) (guid : string) : Result string :=
  match title info with
  | None =>
      Raise (LibraryError "AttributeError"
               "'NoneType' object has no attribute 'endswith'")
  | Some t =>
      let title := chars t in
      let title :=
        if endswith (chars ".mp4") title then take (length title - 4) title
        else title in
      Ok (str (sanitize_filename (title ++ chars ".mp4")))
  end.

End Naming.

(** ** Dropbox share links ([download_dropbox_file], up to the request) *)

Module Dropbox.
Import PyStr.

(** [s.replace(old, new)] for a non-empty [old]: every occurrence, left to
    right, without overlap; [skip] characters of an occurrence are still to
    be passed. *)
Fixpoint replace_from (old new : list ascii) (skip : nat) (s : list ascii)
    : list ascii :=
  match s with
  | [] => []
  | c :: r =>
      match skip with
      | S k => replace_from old new k r
      | O =>
          match match_lit old s with
          | Some _ => new ++ replace_from old new (Nat.pred (length old)) r
          | None => c :: replace_from old new 0 r
          end
      end
  end.

Definition replace (old new : string) (s : list ascii) : list ascii :=
  replace_from (chars old) (chars new) 0 s.

Definition has (sub : string) (s : list ascii) : bool := contains (chars sub) s.

(** The URL that is requested: the share link with [dl=1] forced. *)
Definition request_url (url : string) : string :=
  let u := chars url in
  if has "?dl=0" u then str (replace "?dl=0" "?dl=1" u)
  else if has "&dl=0" u then str (replace "&dl=0" "&dl=1" u)
  else if negb (has "?dl=1" u) && negb (has "&dl=1" u) then
    let separator := if has "?" u then "&" else "?" in
    url +:+ separator +:+ "dl=1"
  else url.

End Dropbox.

(** ** Progress labels ([DownloadProgress._format_time]) *)

Module Progress.
Import PyStr.

(** [f"{n:02d}"] for [n] that is not negative. *)
Definition pad2 (n : Z) : string :=
  if n <? 10 then "0" +:+ of_Z n else of_Z n.

(** [_format_time(seconds)] for [None] or an integer number of seconds. *)
Definition _format_time (seconds : option Z) : string :=
  match seconds with
  | None => "N/A"
  | Some seconds =>
      if seconds <=? 0 then "N/A"
      else
        let hours := seconds / 3600 in
        let minutes := (seconds mod 3600) / 60 in
        let secs := seconds mod 60 in
        if 0 <? hours
        then pad2 hours +:+ ":" +:+ pad2 minutes +:+ ":" +:+ pad2 secs
        else pad2 minutes +:+ ":" +:+ pad2 secs
  end.

End Progress.

(** ** Stand-ins for the collaborators, to run the engine on examples *)

Module Fixture.
Import PyStr.

Definition ok_response (body : string) : Response :=
  {| status_code := 200; text := body; headers := [] |}.

(** A server that answers every request with the same body. *)
Definition constant_reply (body : string) : list Request -> Request -> Result Response :=
  fun _ _ => Ok (ok_response body).

Definition no_info : VideoInfo :=
  {| title := None; duration := None; upload_date := None;
     description := None; thumbnail := None |}.

(** Collaborators over a given server, a given input file content and a
    given downloader of media files; the other downloaders succeed at
    once. *)
Definition collaborators_with (reply : list Request -> Request -> Result Response)
    (input_file : option string) (generic : string -> string -> M string)
    : Collaborators :=
  {| http_reply := reply;
     http_error_message := fun r => of_Z (status_code r) +:+ " Error";
     md5_hexdigest := MD5.hexdigest;
     os_path_join := fun a b => a +:+ "/" +:+ b;
     os_makedirs := fun _ => ret tt;
     read_text_file := fun _ => input_file;
     HAS_YT_DLP := true;
     urlparse_path := fun url => url;
     extract_video_info := fun _ _ => no_info;
     format_filename := fun _ _ => ret "video.mp4";
     ydl_download := fun _ _ _ _ => ret tt;
     download_google_drive_file := fun _ _ => ret "drive.bin";
     download_dropbox_file := fun _ _ => ret "dropbox.bin";
     download_generic_file := generic;
     download_non_drm_video := fun _ _ _ _ => ret "video.mp4";
     save_google_docs_export := fun _ doc_id fmt _ =>
       ret ("googledocs_" +:+ doc_id +:+ "." +:+ fmt);
     report_file_size := fun _ _ => ret tt |}.

(** A media download that succeeds at once and announces its file. *)
Definition fetch_media (url dest : string) : M string :=
  (emit_complete "media.bin" (dest +:+ "/media.bin") ;; ret "media.bin")%py.

Definition collaborators (reply : list Request -> Request -> Result Response)
    (input_file : option string) : Collaborators :=
  collaborators_with reply input_file fetch_media.

Definition playlist : string :=
  "#EXTM3U
640x360/video.drm?contextId=c1
1280x720/video.drm?contextId=c1
854x480/video.drm?contextId=c1
".

Definition config0 (attempts delay : Z) : Config :=
  {| max_parallel_downloads := 3; retry_attempts := attempts;
     retry_delay := delay; preferred_quality := "highest";
     download_subtitles := true; skip_existing := true;
     create_info_json := false; output_format := "{title}.mp4";
     google_docs_format := "pdf" |}.

(** A fresh process: nothing on disk, nothing printed, sent or slept. *)
Definition world0 (attempts delay : Z) (json : bool) : World :=
  {| config := config0 attempts delay; JSON_PROGRESS := json; history := ∅;
     config_file := None; history_file := None;
     history_file_writable := true; stdout := []; requests := [];
     sleeps := []; clock := 1000 |}.

(** An operation that times out until [k] requests have been sent, each
    call sending one, and then returns a file name. *)
Definition flaky (k : nat) : M string :=
  fun w =>
    let w' := set_requests
                (requests w ++ [{| rq_url := "https://host/file.bin";
                                   rq_params := [] |}]) w in
    if (length (requests w) <? k)%nat
    then (Raise (LibraryError "Timeout" ("timed out #" +:+ of_Z (Z.of_nat (length (requests w))))), w')
    else (Ok "file.bin", w').

(** A ledger with one completed download. *)
Definition ledger0 : gmap string HistoryRecord :=
  {[ "http://host/done.mp4" :=
       {| rec_filename := Some "done.mp4"; rec_status := Some "completed";
          rec_timestamp := Some 1; rec_folder := Some "Downloads" |} ]}.

Definition args0 (url input : option string) : Args :=
  {| arg_url := url; arg_input := input; arg_output := "Downloads";
     arg_parallel := 1; arg_quality := "highest"; arg_skip_existing := true;
     arg_subtitles := true; arg_docs_format := "pdf";
     arg_json_progress := true |}.

End Fixture.

(** ** The claims that fail on the code, as the specification words them *)

Module AsStated.
Import PyStr Extractor.

(** "Strip exactly one trailing [)]": the cleaned token is the stripped
    token without its last character, a [)]. *)
Definition strips_exactly_one_paren (tok : list ascii) : Prop :=
  let url := strip_trailing_punct tok in
  (count "(" url < count ")" url)%nat ->
  clean_url tok ++ [")"%char] = url.

(** "Records a failed entry for that URL in the history ledger". *)
Definition records_failed (url : string) (w : World) : Prop :=
  exists r, history w !! url = Some r /\ rec_status r = Some "failed".

End AsStated.

(** ** Vocabulary of the properties *)

(** The record [mark_downloaded] writes in world [w]. *)
Definition record_in (w : World) (filename status : string)
    (folder : option string) : HistoryRecord :=
  {| rec_filename := Some filename; rec_status := Some status;
     rec_timestamp := Some (clock w); rec_folder := folder |}.

(** The records of a ledger filed under [url]. *)
Definition records_for (url : string) (h : gmap string HistoryRecord)
    : list (string * HistoryRecord) :=
  filter (fun kv => kv.1 = url) (map_to_list h).







(** The compatibility table of the Google Docs export, as the
    specification lists it: documents to pdf, docx, txt, html; spreadsheets
    to pdf, xlsx, csv; presentations to pdf, pptx.  The document types are
    spelled as in a share URL. *)
Definition export_table (doc_type export_format : string) : Prop :=
  (doc_type = "document" /\ export_format ∈ ["pdf"; "docx"; "txt"; "html"])
  \/ (doc_type = "spreadsheets" /\ export_format ∈ ["pdf"; "xlsx"; "csv"])
  \/ (doc_type = "presentation" /\ export_format ∈ ["pdf"; "pptx"]).

(** A URL the dispatcher does not attempt: tag Unknown, tag DriveFolder, or
    a DirectVideo URL that fails its guid check. *)
Definition non_attempted (url : string) : Prop :=
  Classifier.detect_url_type url = (Classifier.unknown, false)
  \/ Classifier.detect_url_type url = (Classifier.googledrive_folder, true)
  \/ Classifier.detect_url_type url = (Classifier.bunnycdn, false).

(** What a URL that is not attempted is reported with: the console line
    and the message of the Error event. *)
Definition refusal (url : string) : string * string :=
  match Classifier.detect_url_type url with
  | (Classifier.unknown, _) =>
      ("[SKIP] Unsupported URL type: " +:+ url, "Unsupported URL type")
  | (Classifier.googledrive_folder, _) =>
      ("[INFO] Google Drive folders not supported yet",
       "Google Drive folders not supported")
  | (url_type, _) =>
      ("[SKIP] Invalid " +:+ Classifier.url_type_name url_type +:+ " URL: " +:+ url,
       "Invalid " +:+ Classifier.url_type_name url_type +:+ " URL")
  end.

(** How an error reaches the consumer: an Error event on the event stream,
    a line on the console otherwise. *)
Definition error_report (w : World) (line url message : string) : Output :=
  if JSON_PROGRESS w then Json (EvError url message) else Console line.


(** The digits of the height of a token: what follows its [x]. *)
Definition height_digits (tok : list ascii) : list ascii :=
  default [] (PyStr.split "x" tok !! 1%nat).

(** The height of the token is one [int] converts: its digits are within
    the interpreter's limit. *)
Definition convertible (tok : list ascii) : Prop :=
  (length (height_digits tok) <=? PyStr.int_max_str_digits)%nat = true.

Global Instance convertible_dec (tok : list ascii) : Decision (convertible tok).
Proof. unfold convertible. apply _. Defined.


Section Outcomes.
Context {collab : Collaborators}.

(** The downloader the dispatcher wraps in the retry executor for a tag,
    as called for [url] from world [w]; [None] for the tags it does not
    wrap. *)
Definition retried_downloader (w : World) (url_type : Classifier.UrlType)
    (url dest_folder : string) : option (M string) :=
  match url_type with
  | Classifier.googledrive_file => Some (download_google_drive_file url dest_folder)
  | Classifier.googledocs =>
      Some (download_google_docs url dest_folder (google_docs_format (config w)))
  | Classifier.dropbox => Some (download_dropbox_file url dest_folder)
  | Classifier.generic_media => Some (download_generic_file url dest_folder)
  | _ => None
  end.

(** What [download_video] returned for each URL of a batch, in dispatch
    order, the world being threaded from one URL to the next. *)
Fixpoint outcomes (urls : list string) (output : string) (w : World) : list bool :=
  match urls with
  | [] => []
  | url :: rest =>
      match download_video url output w with
      | (Ok ok, w') => ok :: outcomes rest output w'
      | (Raise _, _) => []
      end
  end.

(** The world after the whole batch. *)
Fixpoint after_all (urls : list string) (output : string) (w : World) : World :=
  match urls with
  | [] => w
  | url :: rest => after_all rest output (download_video url output w).2
  end.
End Outcomes.

(** The title [format_filename] puts before the extension: the title
    without one trailing [.mp4]. *)
Definition without_mp4 (title : list ascii) : list ascii :=
  if Naming.endswith (PyStr.chars ".mp4") title
  then take (length title - 4) title else title.

(** A text made of dots and spaces only, the characters [strip] removes. *)
Definition blank (s : list ascii) : bool := forallb (PyStr.one_of ". ") s.


(** How a completion reaches the consumer: a Complete event on the event
    stream, a line on the console otherwise. *)
Definition completion_report (w : World) (line file path : string) : Output :=
  if JSON_PROGRESS w then Json (EvComplete file path) else Console line.

(** The record of a failure filed at clock reading [t]. *)
Definition failed_record (message dest_folder : string) (t : Z) : HistoryRecord :=
  {| rec_filename := Some message; rec_status := Some "failed";
     rec_timestamp := Some t; rec_folder := Some dest_folder |}.

Section Refusals.
Context {collab : Collaborators}.


(** The request for the page of an embed URL fails: in transport, or with
    a status that [raise_for_status] rejects. *)
Definition page_fetch_fails (w : World) (embed_url : string) (e : exn) : Prop :=
  let rq := {| rq_url := embed_url; rq_params := [] |} in
  http_reply (requests w) rq = Raise e
  \/ exists response,
       http_reply (requests w) rq = Ok response
       /\ 400 <= status_code response < 600
       /\ e = LibraryError "HTTPError" (http_error_message response).
End Refusals.

(** A two-digit field of a progress label reads back as its number and
    holds no colon. *)
Definition field_ok (k : nat) : bool :=
  let f := PyStr.chars (Progress.pad2 (Z.of_nat k)) in
  bool_decide (PyStr.py_int f = Some (Z.of_nat k))
  && negb (existsb (fun c => PyStr.ceqb c ":") f).

(** The URLs of a text, as a scan from left to right finds them: none
    starts at a position of [gap]; [tok] is the URL that starts right
    after it, a piece of the text itself; the scan resumes behind it. *)
Inductive occurrences : list ascii -> list (list ascii) -> Prop :=
| occurrences_none (s : list ascii) :
    (forall q, (q < length s)%nat -> Extractor.url_pattern (drop q s) = None) ->
    occurrences s []
| occurrences_next (gap tok rest : list ascii) (toks : list (list ascii)) :
    (forall q, (q < length gap)%nat ->
               Extractor.url_pattern (drop q (gap ++ tok ++ rest)) = None) ->
    Extractor.url_pattern (tok ++ rest) = Some (tok, length tok) ->
    tok <> [] ->
    occurrences rest toks ->
    occurrences (gap ++ tok ++ rest) (tok :: toks).


(** * Properties *)

(** ** Examples *)

Example md5_vectors :
  MD5.hexdigest "" = "d41d8cd98f00b204e9800998ecf8427e"
  /\ MD5.hexdigest "abc" = "900150983cd24fb0d6963f7d28e17f72"
  /\ MD5.hexdigest "The quick brown fox jumps over the lazy dog"
     = "9e107d9d372bb6826bd81d3542a419d6".
Proof. vm_compute. repeat split. Qed.

Example extract_demo :
  Extractor.extract_urls_from_text
    "see (https://a.com/x(1)), http://b.org/y. and https://a.com/x(1) again"
  = ["https://a.com/x(1"; "http://b.org/y"; "https://a.com/x(1)"].
Proof. vm_compute. reflexivity. Qed.

Example classify_demo :
  map Classifier.detect_url_type
   ["https://iframe.mediadelivery.net/embed/12345/ab-cd";
    "https://iframe.mediadelivery.net/embed/12345/";
    "https://drive.google.com/file/d/ABC123/view";
    "https://drive.google.com/drive/folders/XY_z";
    "https://docs.google.com/document/d/XYZ/edit";
    "https://www.DropBox.com/s/abc";
    "HTTP://host/a.b/movie.MP4?x=1";
    "https://example.com/page"]
  = [(Classifier.bunnycdn, true); (Classifier.bunnycdn, false);
     (Classifier.googledrive_file, true); (Classifier.googledrive_folder, true);
     (Classifier.googledocs, true); (Classifier.dropbox, true);
     (Classifier.generic_media, true); (Classifier.unknown, false)].
Proof. vm_compute. reflexivity. Qed.

Example docs_demo :
  Classifier.get_google_docs_export_link "https://docs.google.com/document/d/XYZ/edit" "docx"
  = Some ("https://docs.google.com/document/d/XYZ/export?format=docx", "XYZ")
  /\ Classifier.get_google_docs_export_link "https://docs.google.com/document/d/XYZ/edit" "csv" = None.
Proof. vm_compute. split; reflexivity. Qed.

(** ** Python string primitives *)

Section PyStrFacts.
Import PyStr.

Lemma rstrip_split (p : ascii -> bool) (s : list ascii) :
  exists t, s = rstrip p s ++ t /\ Forall (fun c => p c = true) t.
Proof.
  induction s as [|c r (t & Hr & Ht)]; simpl.
  - exists []. split; [reflexivity | constructor].
  - destruct (rstrip p r) as [|y r'] eqn:E.
    + simpl in Hr. subst r. destruct (p c) eqn:Hc.
      * exists (c :: t). split; [reflexivity | constructor; assumption].
      * exists t. split; [reflexivity | assumption].
    + exists t. split; [| assumption]. simpl. f_equal. exact Hr.
Qed.

Lemma rstrip_last (p : ascii -> bool) (s pre : list ascii) (c : ascii) :
  rstrip p s = pre ++ [c] -> p c = false.
Proof.
  revert pre. induction s as [|a r IH]; intros pre; simpl.
  - intros E. destruct pre; discriminate E.
  - destruct (rstrip p r) as [|y r'] eqn:E.
    + destruct (p a) eqn:Ha; intros E'.
      * destruct pre; discriminate E'.
      * destruct pre as [|b pre]; simpl in E'.
        -- injection E' as ->. exact Ha.
        -- injection E' as _ E'. destruct pre; discriminate E'.
    + intros E'. destruct pre as [|b pre]; simpl in E'.
      * discriminate E'.
      * injection E' as _ E'. exact (IH pre E').
Qed.

Lemma ceqb_true (a b : ascii) : ceqb a b = true <-> a = b.
Proof. apply Ascii.eqb_eq. Qed.

Lemma Forall_eq_repeat (c : ascii) (t : list ascii) :
  Forall (fun d => ceqb d c = true) t -> t = repeat c (length t).
Proof.
  induction 1 as [|d t Hd _ IH]; simpl; [reflexivity|].
  apply ceqb_true in Hd. subst d. f_equal. exact IH.
Qed.

End PyStrFacts.

(** ** URL extractor *)

Section ExtractorFacts.
Import PyStr Extractor.

Lemma unique_from_elem (seen : gset string) (l : list string) (u : string) :
  u ∈ unique_from seen l <-> u ∈ l /\ u ∉ seen.
Proof.
  revert seen. induction l as [|x l IH]; intros seen; simpl.
  - split; [intros Hin; inversion Hin | intros [Hin _]; inversion Hin].
  - case_bool_decide as Hx.
    + rewrite IH. split.
      * intros [Hin Hs]. split; [right; exact Hin | exact Hs].
      * intros [Hin Hs]. split; [| exact Hs].
        apply elem_of_cons in Hin as [-> | Hin]; [contradiction | exact Hin].
    + rewrite elem_of_cons, IH. split.
      * intros [-> | [Hin Hs]].
        -- split; [left | exact Hx].
        -- split; [right; exact Hin | set_solver].
      * intros [Hin Hs]. apply elem_of_cons in Hin as [-> | Hin].
        -- left. reflexivity.
        -- destruct (decide (u = x)) as [-> | Hne]; [left; reflexivity|].
           right. split; [exact Hin | set_solver].
Qed.

Lemma unique_from_NoDup (seen : gset string) (l : list string) :
  NoDup (unique_from seen l).
Proof.
  revert seen. induction l as [|x l IH]; intros seen; simpl.
  - constructor.
  - case_bool_decide as Hx; [apply IH|].
    constructor; [| apply IH].
    rewrite unique_from_elem. set_solver.
Qed.

Lemma unique_from_app (seen : gset string) (pre l : list string) :
  unique_from seen (pre ++ l)
  = unique_from seen pre ++ unique_from (list_to_set pre ∪ seen) l.
Proof.
  revert seen. induction pre as [|x pre IH]; intros seen; simpl.
  - f_equal. set_solver.
  - case_bool_decide as Hx.
    + rewrite IH. do 2 f_equal. set_solver.
    + simpl. f_equal. rewrite IH. do 2 f_equal. set_solver.
Qed.

Lemma unique_from_fixed (seen : gset string) (l : list string) :
  NoDup l -> (forall x, x ∈ l -> x ∉ seen) -> unique_from seen l = l.
Proof.
  intros Hnd. revert seen. induction Hnd as [|x l Hx Hnd IH]; intros seen Hs; simpl.
  - reflexivity.
  - rewrite bool_decide_eq_false_2 by (apply Hs; left).
    f_equal. apply IH. intros y Hy.
    assert (y ∉ seen) by (apply Hs; right; exact Hy).
    assert (y <> x) by (intros ->; contradiction).
    set_solver.
Qed.

Lemma unique_from_length (seen : gset string) (l : list string) :
  length (unique_from seen l) = size ((list_to_set l : gset string) ∖ seen).
Proof.
  revert seen. induction l as [|x l IH]; intros seen; simpl.
  - replace ((∅ : gset string) ∖ seen) with (∅ : gset string) by set_solver.
    reflexivity.
  - case_bool_decide as Hx.
    + rewrite IH. f_equal. set_solver.
    + simpl. rewrite IH.
      set (tail := (list_to_set l : gset string) ∖ ({[x]} ∪ seen)).
      assert (Hsplit : (({[x]} ∪ list_to_set l) ∖ seen : gset string)
                       = ({[x]} : gset string) ∪ tail).
      { apply set_eq. intros y. unfold tail.
        destruct (decide (y = x)) as [-> | Hne]; set_solver. }
      rewrite Hsplit.
      rewrite (size_union ({[x]} : gset string) tail) by (unfold tail; set_solver).
      rewrite size_singleton. reflexivity.
Qed.

(** What [clean_url] does when the stripped token has more [)] than [(]:
    the whole run of trailing [)] is removed, however long: the stripped
    token is the result followed by [)] characters only, and the result
    does not end in [)]. *)
Theorem clean_url_strips_all_trailing_parens (tok : list ascii) :
  let url := strip_trailing_punct tok in
  (count "(" url < count ")" url)%nat ->
  exists n : nat,
    url = clean_url tok ++ repeat ")"%char n
    /\ forall pre, clean_url tok <> pre ++ [")"%char].
Proof.
  intros url Hlt. unfold clean_url. fold url.
  apply Nat.ltb_lt in Hlt. rewrite Hlt.
  destruct (rstrip_split (fun c => ceqb c ")") url) as (t & Hsplit & Ht).
  exists (length t). split.
  - rewrite <- (Forall_eq_repeat _ _ Ht). exact Hsplit.
  - intros pre Hpre. apply rstrip_last in Hpre. discriminate Hpre.
Qed.

(** On a token that ends in two [)], both are removed. *)
Lemma clean_url_strips_all_trailing_parens_witness :
  exists n : nat,
    chars "http://a.com/x))" = chars "http://a.com/x" ++ repeat ")"%char n
    /\ forall pre, chars "http://a.com/x" <> pre ++ [")"%char].
Proof.
  apply (clean_url_strips_all_trailing_parens (chars "http://a.com/x))")).
  vm_compute. repeat constructor.
Defined.

(** C5, as stated, fails on the code: the text below yields the one token
    [http://a.com/x))], whose two trailing [)] are both removed, so the
    cleaned token followed by one [)] is not the stripped token. *)
Lemma clean_url_not_exactly_one_paren :
  finditer (chars "see http://a.com/x)) now") = [chars "http://a.com/x))"]
  /\ clean_url (chars "http://a.com/x))") = chars "http://a.com/x"
  /\ ~ AsStated.strips_exactly_one_paren (chars "http://a.com/x))").
Proof.
  split; [vm_compute; reflexivity|].
  split; [vm_compute; reflexivity|].
  intros Hone.
  assert (Hlt : (count "(" (strip_trailing_punct (chars "http://a.com/x))"))
                 < count ")" (strip_trailing_punct (chars "http://a.com/x))")))%nat)
    by (vm_compute; repeat constructor).
  specialize (Hone Hlt). vm_compute in Hone. discriminate Hone.
Qed.

(** C5: the guard compares the counts of [(] and [)], and so aims at
    balanced parentheses, but [rstrip] misses them.  The link below ends
    in a parenthesis of its own and is quoted between parentheses: the
    token has one [(] and two [)], both [)] are stripped, and the URL that
    is returned has lost its own closing parenthesis.  Stripping exactly
    one [)], as specified, would return the link. *)
Lemma extract_urls_unbalances_link :
  let text := "(see https://en.wikipedia.org/wiki/Rocq_(software))" in
  let link := "https://en.wikipedia.org/wiki/Rocq_(software)" in
  finditer (chars text) = [chars link ++ [")"%char]]
  /\ extract_urls_from_text text
     = ["https://en.wikipedia.org/wiki/Rocq_(software"]
  /\ ~ AsStated.strips_exactly_one_paren (chars link ++ [")"%char]).
Proof.
  split; [vm_compute; reflexivity|].
  split; [vm_compute; reflexivity|].
  intros Hone.
  assert (Hlt : (count "(" (strip_trailing_punct
                              (chars "https://en.wikipedia.org/wiki/Rocq_(software))"))
                 < count ")" (strip_trailing_punct
                                (chars "https://en.wikipedia.org/wiki/Rocq_(software))")))%nat)
    by (vm_compute; repeat constructor).
  specialize (Hone Hlt). vm_compute in Hone. discriminate Hone.
Qed.

Lemma url_body_le (skip : nat) (s : list ascii) :
  (url_body skip s <= length s)%nat.
Proof.
  revert skip. induction s as [|c r IH]; intros skip; cbn [url_body length]; [lia|].
  destruct skip as [|k].
  - destruct (url_alt (c :: r)) as [n|]; [| lia].
    specialize (IH (Nat.pred n)). lia.
  - specialize (IH k). lia.
Qed.

Lemma match_lit_split (lit s r : list ascii) :
  match_lit lit s = Some r -> s = lit ++ r.
Proof.
  revert s. induction lit as [|a lit IH]; intros s; simpl.
  - intros [= ->]. reflexivity.
  - destruct s as [|c s]; [discriminate|].
    destruct (ceqb a c) eqn:E; [|discriminate].
    apply ceqb_true in E as ->. intros H. rewrite (IH _ H). reflexivity.
Qed.

(** A match of the URL pattern is a piece of the text: the first
    characters of what it is matched against, at least one. *)
Lemma url_pattern_prefix (s tok : list ascii) (n : nat) :
  url_pattern s = Some (tok, n) ->
  s = tok ++ drop n s /\ length tok = n /\ tok <> [].
Proof.
  assert (Hafter : forall pre r tok n,
            after_scheme pre r = Some (tok, n) ->
            pre ++ r = tok ++ drop n (pre ++ r) /\ length tok = n /\ tok <> []).
  { intros pre r tok' n'. unfold after_scheme.
    destruct (match_lit (chars "://") r) as [r'|] eqn:E; [|discriminate].
    apply match_lit_split in E as ->.
    pose proof (url_body_le 0 r') as Hle.
    destruct (url_body 0 r') as [|k]; [discriminate|].
    intros [= <- <-].
    assert (Hlen : length (pre ++ chars "://" ++ take (S k) r')
                   = (length pre + 3 + S k)%nat).
    { rewrite !length_app, length_take. cbn [chars list_ascii_of_string length]. lia. }
    split; [| split; [exact Hlen|]].
    - rewrite <- Hlen.
      replace (pre ++ chars "://" ++ r')
        with ((pre ++ chars "://" ++ take (S k) r') ++ drop (S k) r')
        by (rewrite <- !app_assoc, take_drop; reflexivity).
      rewrite drop_app_length. reflexivity.
    - intros Hnil. apply (f_equal length) in Hnil.
      rewrite !length_app in Hnil. cbn in Hnil. lia. }
  unfold url_pattern.
  destruct (match_lit (chars "http") s) as [r|] eqn:E; [|discriminate].
  apply match_lit_split in E as ->.
  destruct (match_lit (chars "s") r) as [r'|] eqn:E'.
  - apply match_lit_split in E' as ->.
    destruct (after_scheme (chars "https") r') as [m|] eqn:Es.
    + intros [= ->]. apply (Hafter (chars "https") r'). exact Es.
    + intros Ha. apply (Hafter (chars "http") (chars "s" ++ r')). exact Ha.
  - intros Ha. apply (Hafter (chars "http") r). exact Ha.
Qed.

(** Where the pattern does not match, the scan moves on by one
    character. *)
Lemma occurrences_cons (c : ascii) (r : list ascii) (toks : list (list ascii)) :
  url_pattern (c :: r) = None -> occurrences r toks -> occurrences (c :: r) toks.
Proof.
  intros Hnone Hocc. destruct Hocc as [s Hs | gap tok rest toks Hgap Htok Hne Hrest].
  - apply occurrences_none. intros [|q] Hq; [exact Hnone|].
    apply Hs. cbn [length] in Hq. lia.
  - change (c :: gap ++ tok ++ rest) with ((c :: gap) ++ tok ++ rest).
    apply occurrences_next; try assumption.
    intros [|q] Hq; [exact Hnone|]. apply Hgap. cbn [length] in Hq. lia.
Qed.

Lemma scan_occurrences (skip : nat) (s : list ascii) :
  occurrences (drop skip s) (scan url_pattern skip s).
Proof.
  revert skip. induction s as [|c r IH]; intros skip.
  - rewrite drop_nil. apply occurrences_none. intros q Hq. cbn in Hq. lia.
  - destruct skip as [|k]; [| exact (IH k)].
    cbn [scan]. rewrite drop_0.
    destruct (url_pattern (c :: r)) as [[tok n]|] eqn:E.
    + destruct (url_pattern_prefix _ _ _ E) as (Hs & Hn & Hne).
      assert (Hdrop : drop n (c :: r) = drop (Nat.pred n) r).
      { destruct n as [|n]; [| reflexivity].
        destruct tok; [contradiction | discriminate Hn]. }
      set (rest := drop (Nat.pred n) r).
      assert (Hs' : c :: r = [] ++ tok ++ rest).
      { rewrite Hs at 1. rewrite Hdrop. reflexivity. }
      rewrite Hs'. apply occurrences_next.
      * intros q Hq. cbn in Hq. lia.
      * rewrite Hn. cbn [app] in Hs'. rewrite <- Hs'. exact E.
      * exact Hne.
      * apply IH.
    + apply occurrences_cons; [exact E | exact (IH 0%nat)].
Qed.

Lemma url_pattern_found (scheme : string) (c : ascii) (rest : list ascii) :
  scheme = "http" \/ scheme = "https" ->
  is_alpha c || is_digit c = true ->
  url_pattern (chars scheme ++ chars "://" ++ c :: rest) <> None.
Proof.
  intros Hscheme Hc.
  assert (Halt : url_alt (c :: rest) = Some 1%nat).
  { unfold url_alt. destruct (is_alpha c); [reflexivity|].
    cbn [orb] in Hc. rewrite Hc. reflexivity. }
  assert (Hbody : url_body 0 (c :: rest) <> 0%nat).
  { cbn [url_body]. rewrite Halt. discriminate. }
  destruct Hscheme as [-> | ->]; unfold url_pattern;
    cbn [chars list_ascii_of_string app match_lit ceqb Ascii.eqb Bool.eqb];
    cbn [chars list_ascii_of_string app match_lit ceqb Ascii.eqb Bool.eqb
         after_scheme];
    destruct (url_body 0 (c :: rest)); [contradiction | discriminate
                                       | contradiction | discriminate].
Qed.

(** C9: extraction is a function of the text alone, so two runs give the
    same sequence, and running the de-duplication again on its output
    changes nothing; the output has no duplicate; it holds exactly the
    captured URLs; a URL first captured after the captures [pre] comes
    right after the de-duplicated [pre], at the index that is the number
    of distinct URLs captured before it: the position of its first
    occurrence.  The captured URLs are the cleaned occurrences of the URL
    pattern in the text, taken from left to right; in particular a text
    in which a scheme is followed by a letter or a digit yields a URL. *)
Theorem extract_urls_first_occurrence_order (text : string) :
  let out := extract_urls_from_text text in
  let raw := captured_urls text in
  unique_from ∅ out = out
  /\ NoDup out
  /\ (forall u, u ∈ out <-> u ∈ raw)
  /\ (forall pre u post,
        raw = pre ++ u :: post -> u ∉ pre ->
        (exists rest, out = unique_from ∅ pre ++ u :: rest)
        /\ out !! size (list_to_set pre : gset string) = Some u)
  /\ (exists toks,
        occurrences (chars text) toks
        /\ raw = map (fun tok => str (clean_url tok)) toks)
  /\ (forall scheme before c after,
        scheme = "http" \/ scheme = "https" ->
        chars text = before ++ chars scheme ++ chars "://" ++ c :: after ->
        is_alpha c || is_digit c = true ->
        out <> []).
Proof.
  intros out raw.
  assert (Hocc : occurrences (chars text) (finditer (chars text))).
  { unfold finditer. rewrite <- (drop_0 (chars text)) at 1. apply scan_occurrences. }
  unfold out, extract_urls_from_text. fold raw.
  split; [| split; [| split; [| split; [| split]]]].
  - apply unique_from_fixed; [apply unique_from_NoDup | set_solver].
  - apply unique_from_NoDup.
  - intros u. rewrite unique_from_elem. set_solver.
  - intros pre u post -> Hu.
    rewrite unique_from_app. simpl.
    rewrite bool_decide_eq_false_2 by set_solver.
    split; [eexists; reflexivity|].
    replace (size (list_to_set pre : gset string))
      with (length (unique_from ∅ pre) + 0)%nat.
    + rewrite lookup_app_r by lia.
      replace (length (unique_from ∅ pre) + 0 - length (unique_from ∅ pre))%nat
        with 0%nat by lia.
      reflexivity.
    + rewrite unique_from_length, Nat.add_0_r. f_equal. set_solver.
  - exists (finditer (chars text)). split; [exact Hocc | reflexivity].
  - intros scheme before c after Hscheme Htext Hc Hout.
    assert (Hraw : raw = []).
    { destruct raw as [|u raw']; [reflexivity|]. cbn in Hout. discriminate Hout. }
    unfold raw, captured_urls in Hraw. apply map_eq_nil in Hraw.
    rewrite Hraw in Hocc. inversion Hocc as [s Hs Heq |]; subst.
    apply (url_pattern_found scheme c after Hscheme Hc).
    specialize (Hs (length before)). rewrite Htext in Hs.
    rewrite drop_app_length in Hs. apply Hs.
    rewrite !length_app. cbn [length].
    destruct Hscheme as [-> | ->]; cbn; lia.
Qed.

(** C9 on a text that names one URL twice: it is returned once, before
    the URL that first occurs after it. *)
Lemma extract_urls_first_occurrence_order_witness :
  let text := "get http://b.org/x, then http://a.org/y and http://b.org/x." in
  extract_urls_from_text text = ["http://b.org/x"; "http://a.org/y"]
  /\ extract_urls_from_text text !! 1%nat = Some "http://a.org/y"
  /\ NoDup (extract_urls_from_text text).
Proof.
  intros text.
  destruct (extract_urls_first_occurrence_order text)
    as (_ & Hnodup & _ & Horder & _).
  split; [vm_compute; reflexivity|]. split; [| exact Hnodup].
  destruct (Horder ["http://b.org/x"] "http://a.org/y" ["http://b.org/x"])
    as [_ Hat].
  - vm_compute. reflexivity.
  - intros Hin. rewrite elem_of_cons, elem_of_nil in Hin.
    destruct Hin as [Hin | []]. discriminate Hin.
  - exact Hat.
Defined.

End ExtractorFacts.

(** ** History ledger *)

Section LedgerFacts.

Lemma mark_downloaded_result url filename status folder w :
  (mark_downloaded url filename status folder w).1 = Ok tt.
Proof. reflexivity. Qed.

Lemma mark_downloaded_history url filename status folder w :
  history (mark_downloaded url filename status folder w).2
  = <[url := record_in w filename status folder]> (history w).
Proof.
  unfold mark_downloaded, bind, modify, save_history, modify. simpl.
  destruct (history_file_writable w); reflexivity.
Qed.

Lemma mark_downloaded_config url filename status folder w :
  config (mark_downloaded url filename status folder w).2 = config w.
Proof.
  unfold mark_downloaded, bind, modify, save_history, modify. simpl.
  destruct (history_file_writable w); reflexivity.
Qed.

Lemma mark_downloaded_clock url filename status folder w :
  clock (mark_downloaded url filename status folder w).2 = clock w.
Proof.
  unfold mark_downloaded, bind, modify, save_history, modify. simpl.
  destruct (history_file_writable w); reflexivity.
Qed.

Lemma records_for_absent url (h : gmap string HistoryRecord) :
  h !! url = None -> records_for url h = [].
Proof.
  intros Hnone. unfold records_for.
  destruct (filter _ (map_to_list h)) as [|[k v] l] eqn:E; [reflexivity|].
  assert (Hin : (k, v) ∈ filter (fun kv : string * HistoryRecord => kv.1 = url)
                            (map_to_list h))
    by (rewrite E; left).
  apply list_elem_of_filter in Hin as [Hk Hin]. simpl in Hk. subst k.
  apply elem_of_map_to_list in Hin. congruence.
Qed.

Lemma records_for_insert url r (h : gmap string HistoryRecord) :
  length (records_for url (<[url := r]> h)) = 1%nat.
Proof.
  rewrite <- insert_delete_eq. unfold records_for.
  rewrite map_to_list_insert by apply lookup_delete_eq.
  rewrite filter_cons_True by reflexivity. simpl. f_equal.
  fold (records_for url (delete url h)).
  rewrite records_for_absent by apply lookup_delete_eq. reflexivity.
Qed.

Lemma is_downloaded_run url w :
  is_downloaded url w
  = (Ok (skip_existing (config w) &&
         match history w !! url with
         | Some r => bool_decide (rec_status r = Some "completed")
         | None => false
         end), w).
Proof. reflexivity. Qed.

(** C6: after two [mark_downloaded] calls for one URL the ledger holds
    one record under it, the second call's; the same holds for a call in
    any world, whatever came before.  Right after a [completed] mark
    [is_downloaded] answers the skip policy (true when it is enabled),
    right after a [failed] mark it answers false, and with the policy
    disabled it answers false on any ledger. *)
Theorem ledger_keeps_latest_record (url : string) :
  (forall f1 s1 d1 f2 s2 d2 w,
     let w1 := (mark_downloaded url f1 s1 d1 w).2 in
     let w2 := (mark_downloaded url f2 s2 d2 w1).2 in
     history w2 !! url = Some (record_in w1 f2 s2 d2)
     /\ length (records_for url (history w2)) = 1%nat)
  /\ (forall f s d w,
        let w' := (mark_downloaded url f s d w).2 in
        history w' !! url = Some (record_in w f s d)
        /\ length (records_for url (history w')) = 1%nat)
  /\ (forall f d w,
        (is_downloaded url (mark_downloaded url f "completed" d w).2).1
        = Ok (skip_existing (config w)))
  /\ (forall e d w,
        (is_downloaded url (mark_downloaded url e "failed" d w).2).1 = Ok false)
  /\ (forall w,
        skip_existing (config w) = false -> (is_downloaded url w).1 = Ok false).
Proof.
  assert (Hone : forall f s d w,
    let w' := (mark_downloaded url f s d w).2 in
    history w' !! url = Some (record_in w f s d)
    /\ length (records_for url (history w')) = 1%nat).
  { intros f s d w w'. unfold w'. rewrite mark_downloaded_history.
    split; [apply lookup_insert_eq | apply records_for_insert]. }
  split; [| split; [| split; [| split]]].
  - intros f1 s1 d1 f2 s2 d2 w w1 w2. apply Hone.
  - exact Hone.
  - intros f d w. rewrite is_downloaded_run. cbn [fst].
    rewrite mark_downloaded_config, mark_downloaded_history, lookup_insert_eq.
    cbn [rec_status record_in]. rewrite bool_decide_eq_true_2 by reflexivity.
    rewrite andb_true_r. reflexivity.
  - intros e d w. rewrite is_downloaded_run. cbn [fst].
    rewrite mark_downloaded_history, lookup_insert_eq.
    cbn [rec_status record_in]. rewrite bool_decide_eq_false_2 by discriminate.
    rewrite andb_false_r. reflexivity.
  - intros w Hoff. rewrite is_downloaded_run. cbn [fst]. rewrite Hoff. reflexivity.
Qed.

End LedgerFacts.

(** ** Retry executor *)

Section RetryFacts.
Context {A : Type}.
Implicit Types (op : M A) (w : World).

Lemma range_nonpositive (n : Z) : n <= 0 -> range n = [].
Proof.
  intros Hn. unfold range. replace (Z.to_nat n) with 0%nat by lia. reflexivity.
Qed.

Lemma range_from (n : Z) : range n = map Z.of_nat (seq 0 (Z.to_nat n)).
Proof. reflexivity. Qed.

Lemma retry_loop_success op attempt rest last w v w' :
  op w = (Ok v, w') ->
  retry_loop op (attempt :: rest) last w = (Ok v, w').
Proof. intros Hop. simpl. unfold try_except. rewrite Hop. reflexivity. Qed.









Lemma download_with_retry_run op w :
  download_with_retry op w
  = retry_loop op (range (retry_attempts (config w))) None w.
Proof. reflexivity. Qed.

End RetryFacts.





(** C10: with an attempt count of zero or less, [download_with_retry]
    raises [TypeError] and leaves the world as it was, whatever the
    operation is: the operation is never invoked.  With a count of at least
    one the operation is invoked: when it succeeds at once its value is
    returned. *)
Theorem download_with_retry_needs_an_attempt {A} (op : M A) (w : World) :
  (retry_attempts (config w) <= 0 ->
   download_with_retry op w
   = (Raise (TypeError "exceptions must derive from BaseException"), w))
  /\ (1 <= retry_attempts (config w) ->
      forall v w', op w = (Ok v, w') -> download_with_retry op w = (Ok v, w')).
Proof.
  split.
  - intros Hn. rewrite download_with_retry_run, range_nonpositive by exact Hn.
    reflexivity.
  - intros Hn v w' Hop. rewrite download_with_retry_run, range_from.
    destruct (Z.to_nat (retry_attempts (config w))) as [|m] eqn:E; [lia|].
    apply retry_loop_success. exact Hop.
Qed.

(** C10 with an attempt count of zero, on an operation that would send a
    request if it were called: nothing is sent. *)
Lemma download_with_retry_needs_an_attempt_witness :
  download_with_retry (Fixture.flaky 0) (Fixture.world0 0 5 true)
  = (Raise (TypeError "exceptions must derive from BaseException"),
     Fixture.world0 0 5 true)
  /\ download_with_retry (Fixture.flaky 0) (Fixture.world0 1 5 true)
     = (Ok "file.bin", (Fixture.flaky 0 (Fixture.world0 1 5 true)).2).
Proof.
  split.
  - apply (proj1 (download_with_retry_needs_an_attempt (Fixture.flaky 0)
                    (Fixture.world0 0 5 true))).
    simpl. lia.
  - apply (proj2 (download_with_retry_needs_an_attempt (Fixture.flaky 0)
                    (Fixture.world0 1 5 true))).
    + simpl. lia.
    + reflexivity.
Defined.

(** ** Google Docs export *)

Section ExportFacts.
Context {collab : Collaborators}.
Import PyStr Classifier.

Lemma dict_get_is_Some {V} (d : list (string * V)) (k : string) :
  is_Some (dict_get d k) <-> k ∈ map fst d.
Proof.
  induction d as [|[k' v] d IH]; simpl.
  - split; [intros [x Hx]; discriminate Hx | intros Hin; inversion Hin].
  - destruct (String.eqb_spec k' k) as [-> | Hne].
    + split; [intros _; left | intros _; eexists; reflexivity].
    + rewrite IH, elem_of_cons. split; [intros Hin; right; exact Hin|].
      intros [-> | Hin]; [contradiction | exact Hin].
Qed.

Lemma supported_export_table (doc_type export_format : string) :
  supported doc_type export_format = true <-> export_table doc_type export_format.
Proof.
  unfold supported, export_table, export_formats. cbn [dict_get].
  destruct (String.eqb_spec "document" doc_type) as [<- | Hdoc].
  { rewrite bool_decide_eq_true, dict_get_is_Some. cbn [map fst].
    split; [intros Hin; left; split; [reflexivity | exact Hin]|].
    intros [[_ Hin] | [[Habs _] | [Habs _]]]; [exact Hin | discriminate | discriminate]. }
  destruct (String.eqb_spec "spreadsheets" doc_type) as [<- | Hsheet].
  { rewrite bool_decide_eq_true, dict_get_is_Some. cbn [map fst].
    split; [intros Hin; right; left; split; [reflexivity | exact Hin]|].
    intros [[Habs _] | [[_ Hin] | [Habs _]]]; [discriminate | exact Hin | discriminate]. }
  destruct (String.eqb_spec "presentation" doc_type) as [<- | Hpres].
  { rewrite bool_decide_eq_true, dict_get_is_Some. cbn [map fst].
    split; [intros Hin; right; right; split; [reflexivity | exact Hin]|].
    intros [[Habs _] | [[Habs _] | [_ Hin]]]; [discriminate | discriminate | exact Hin]. }
  split; [discriminate|].
  intros [[Heq _] | [[Heq _] | [Heq _]]]; congruence.
Qed.

Lemma search_first_Some {B} (m : list ascii -> option B) (s : list ascii) (x : B) :
  search_first m s = Some x -> exists pre t, s = pre ++ t /\ m t = Some x.
Proof.
  induction s as [|c r IH]; simpl.
  - destruct (m []) eqn:E; [|discriminate].
    intros [= ->]. exists [], []. split; [reflexivity | exact E].
  - destruct (m (c :: r)) eqn:E.
    + intros [= ->]. exists [], (c :: r). split; [reflexivity | exact E].
    + intros Hr. destruct (IH Hr) as (pre & t & -> & Ht).
      exists (c :: pre), t. split; [reflexivity | exact Ht].
Qed.

Lemma alt_lit_group {B} (alts : list string)
    (k : list ascii -> list ascii -> option B) (s : list ascii) (x : B) :
  alt_lit false alts k s = Some x ->
  exists a r, a ∈ alts /\ match_lit (chars a) s = Some r
              /\ k (take (length (chars a)) s) r = Some x.
Proof.
  induction alts as [|a alts IH]; simpl; [discriminate|].
  destruct (match_lit (chars a) s) as [r|] eqn:Hlit; simpl.
  - destruct (k (take (length (chars a)) s) r) as [y|] eqn:Hk.
    + intros [= ->]. exists a, r. split; [left | split; assumption].
    + intros Halt. destruct (IH Halt) as (a' & r' & Hin & Hrest).
      exists a', r'. split; [right; exact Hin | exact Hrest].
  - intros Halt. destruct (IH Halt) as (a' & r' & Hin & Hrest).
    exists a', r'. split; [right; exact Hin | exact Hrest].
Qed.

Lemma match_lit_prefix (lit s r : list ascii) :
  match_lit lit s = Some r -> s = lit ++ r.
Proof.
  revert s. induction lit as [|a lit IH]; intros s; simpl.
  - intros [= ->]. reflexivity.
  - destruct s as [|c s]; [discriminate|].
    destruct (ceqb a c) eqn:E; [|discriminate].
    apply Ascii.eqb_eq in E. subst c. intros Hm. rewrite (IH s Hm). reflexivity.
Qed.

Lemma str_chars (s : string) : str (chars s) = s.
Proof. apply string_of_list_ascii_of_string. Qed.

(** The document type a share URL is matched with is one of the three
    alternatives of the pattern. *)
Lemma googledocs_doc_type (url : string) (g1 g2 : list ascii) :
  search_first googledocs_pattern (chars url) = Some (g1, g2) ->
  str g1 ∈ ["document"; "spreadsheets"; "presentation"].
Proof.
  intros Hs. apply search_first_Some in Hs as (pre & t & _ & Hm).
  unfold googledocs_pattern in Hm.
  destruct (match_lit (chars "https://docs.google.com/") t) as [r0|]; [|discriminate].
  cbv beta iota delta [mbind option_bind] in Hm.
  apply alt_lit_group in Hm as (a & r & Hin & Hlit & Hk).
  destruct (match_lit (chars "/d/") r) as [r2|]; [|discriminate].
  destruct (run1 is_id_char r2) as [[g2' r3]|]; [|discriminate].
  injection Hk as <- _.
  apply match_lit_prefix in Hlit. subst r0.
  rewrite take_app_length, str_chars. exact Hin.
Qed.

(** C7: for a share URL with document type [T] and document id [D], and a
    requested format [F]: an export link is produced exactly when [(T, F)]
    is in the compatibility table; the link is then
    [https://docs.google.com/T/d/D/export?format=F]; otherwise
    [download_google_docs] raises at once and leaves the world as it was,
    so no request is sent. *)
Theorem google_docs_export_by_table (url export_format : string)
    (g1 g2 : list ascii) :
  search_first googledocs_pattern (chars url) = Some (g1, g2) ->
  let doc_type := str g1 in
  let doc_id := str g2 in
  doc_type ∈ ["document"; "spreadsheets"; "presentation"]
  /\ (is_Some (get_google_docs_export_link url export_format)
      <-> export_table doc_type export_format)
  /\ (export_table doc_type export_format ->
      get_google_docs_export_link url export_format
      = Some ("https://docs.google.com/" +:+ doc_type +:+ "/d/" +:+ doc_id
                +:+ "/export?format=" +:+ export_format, doc_id))
  /\ (~ export_table doc_type export_format ->
      forall dest_folder w,
        download_google_docs url dest_folder export_format w
        = (Raise (Exception "Invalid Google Docs URL"), w)).
Proof.
  intros Hm doc_type doc_id.
  split; [exact (googledocs_doc_type url g1 g2 Hm)|].
  assert (Hlink : export_table doc_type export_format ->
    get_google_docs_export_link url export_format
    = Some ("https://docs.google.com/" +:+ doc_type +:+ "/d/" +:+ doc_id
              +:+ "/export?format=" +:+ export_format, doc_id)).
  { intros Htab. apply supported_export_table in Htab.
    unfold get_google_docs_export_link. rewrite Hm. fold doc_type doc_id.
    rewrite Htab. destruct (String.eqb_spec doc_type "spreadsheets") as [-> | _];
      reflexivity. }
  assert (Hnone : ~ export_table doc_type export_format ->
    get_google_docs_export_link url export_format = None).
  { intros Htab. rewrite <- supported_export_table in Htab.
    apply not_true_is_false in Htab.
    unfold get_google_docs_export_link. rewrite Hm. fold doc_type doc_id.
    rewrite Htab. reflexivity. }
  split; [| split].
  - split.
    + intros Hsome.
      destruct (supported doc_type export_format) eqn:E;
        [apply supported_export_table; exact E|].
      rewrite Hnone in Hsome; [destruct Hsome as [x Hx]; discriminate Hx|].
      rewrite <- supported_export_table, E. discriminate.
    + intros Htab. rewrite (Hlink Htab). eexists. reflexivity.
  - exact Hlink.
  - intros Htab dest_folder w. unfold download_google_docs.
    rewrite (Hnone Htab). reflexivity.
Qed.

End ExportFacts.

(** C7 on the share URL of a document: [docx] is in the table and gives the
    export link; [csv] is not and is refused without a request. *)
Lemma google_docs_export_by_table_witness :
  Classifier.get_google_docs_export_link
    "https://docs.google.com/document/d/XYZ/edit" "docx"
  = Some ("https://docs.google.com/document/d/XYZ/export?format=docx", "XYZ")
  /\ forall w,
       @download_google_docs
         (Fixture.collaborators (Fixture.constant_reply "") None)
         "https://docs.google.com/document/d/XYZ/edit" "Downloads" "csv" w
       = (Raise (Exception "Invalid Google Docs URL"), w).
Proof.
  pose proof (@google_docs_export_by_table
                (Fixture.collaborators (Fixture.constant_reply "") None)
                "https://docs.google.com/document/d/XYZ/edit") as Hthm.
  split.
  - destruct (Hthm "docx" (PyStr.chars "document") (PyStr.chars "XYZ") eq_refl)
      as (_ & _ & Hlink & _).
    apply Hlink. left. split; [reflexivity | set_solver].
  - destruct (Hthm "csv" (PyStr.chars "document") (PyStr.chars "XYZ") eq_refl)
      as (_ & _ & _ & Hreject).
    intros w. apply Hreject.
    intros [[_ Hin] | [[Habs _] | [Habs _]]];
      [ | discriminate Habs | discriminate Habs].
    set_solver.
Defined.

(** ** DRM handshake and resolution selection *)

Section DrmFacts.
Context {collab : Collaborators}.
Import PyStr Classifier.

Lemma session_get_run (url : string) (params : list (string * string)) w :
  session_get url params w
  = (http_reply (requests w) {| rq_url := url; rq_params := params |},
     set_requests (requests w ++ [{| rq_url := url; rq_params := params |}]) w).
Proof.
  unfold session_get. destruct (http_reply _ _); reflexivity.
Qed.

(** C3: the handshake sends the ping first, signed with the MD5 digest of
    [secret_contextID_0_true_0]; it sends the activate call next, and
    nothing else: two calls whenever the ping call returns (one when the
    transport raises on the ping, which ends the handshake).  It succeeds
    when both calls return.  A ping for any [(time, paused, res)] is
    signed with the digest of the five values joined by underscores. *)
Theorem drm_auth_ping_then_activate (server_id context_id secret guid : string)
    (w : World) :
  let ping_rq :=
    {| rq_url := "https://video-" +:+ server_id +:+ ".mediadelivery.net/.drm/"
                   +:+ context_id +:+ "/ping";
       rq_params :=
         [("hash", md5_hexdigest (secret +:+ "_" +:+ context_id +:+ "_0_true_0"));
          ("time", "0"); ("paused", "true"); ("chosen_res", "0")] |} in
  let activate_rq :=
    {| rq_url := "https://video-" +:+ server_id +:+ ".mediadelivery.net/.drm/"
                   +:+ context_id +:+ "/activate";
       rq_params := [] |} in
  let run := _drm_auth server_id context_id secret guid w in
  requests run.2
  = requests w ++
    ping_rq :: match http_reply (requests w) ping_rq with
               | Ok _ => [activate_rq]
               | Raise _ => []
               end
  /\ run.1
     = match http_reply (requests w) ping_rq with
       | Raise e => Raise e
       | Ok _ =>
           match http_reply (requests w ++ [ping_rq]) activate_rq with
           | Raise e => Raise e
           | Ok _ => Ok tt
           end
       end
  /\ forall (time_val : Z) (paused res : string),
       requests (ping server_id context_id secret time_val paused res w).2
       = requests w ++
         [{| rq_url := "https://video-" +:+ server_id
                         +:+ ".mediadelivery.net/.drm/" +:+ context_id +:+ "/ping";
             rq_params :=
               [("hash", md5_hexdigest
                           (secret +:+ "_" +:+ context_id +:+ "_" +:+ of_Z time_val
                              +:+ "_" +:+ paused +:+ "_" +:+ res));
                ("time", of_Z time_val); ("paused", paused);
                ("chosen_res", res)] |}].
Proof.
  intros ping_rq activate_rq run.
  assert (Hping : forall time_val paused res,
    ping server_id context_id secret time_val paused res w
    = let rq := {| rq_url := "https://video-" +:+ server_id
                               +:+ ".mediadelivery.net/.drm/" +:+ context_id
                               +:+ "/ping";
                   rq_params :=
                     [("hash", md5_hexdigest
                                 (ping_message secret context_id time_val paused res));
                      ("time", of_Z time_val); ("paused", paused);
                      ("chosen_res", res)] |} in
      (match http_reply (requests w) rq with
       | Ok _ => Ok tt
       | Raise e => Raise e
       end, set_requests (requests w ++ [rq]) w)).
  { intros time_val paused res. unfold ping, bind. rewrite session_get_run.
    cbv zeta. destruct (http_reply _ _); reflexivity. }
  split; [| split].
  - unfold run, _drm_auth, bind. rewrite Hping. cbv zeta.
    change (of_Z 0) with "0".
    change (ping_message secret context_id 0 "true" "0")
      with (secret +:+ "_" +:+ context_id +:+ "_0_true_0").
    fold ping_rq. destruct (http_reply (requests w) ping_rq); [|reflexivity].
    rewrite session_get_run. fold activate_rq.
    destruct (http_reply _ activate_rq); simpl; rewrite <- app_assoc; reflexivity.
  - unfold run, _drm_auth, bind. rewrite Hping. cbv zeta.
    change (of_Z 0) with "0".
    change (ping_message secret context_id 0 "true" "0")
      with (secret +:+ "_" +:+ context_id +:+ "_0_true_0").
    fold ping_rq. destruct (http_reply (requests w) ping_rq); [|reflexivity].
    rewrite session_get_run. fold activate_rq. cbn [requests set_requests].
    destruct (http_reply _ activate_rq); reflexivity.
  - intros time_val paused res. rewrite Hping. reflexivity.
Qed.

End DrmFacts.

Example drm_auth_demo :
  requests
    (@_drm_auth (Fixture.collaborators (Fixture.constant_reply "") None)
       "77" "ctx-1" "s3cr3t" "guid" (Fixture.world0 3 5 true)).2
  = [ {| rq_url := "https://video-77.mediadelivery.net/.drm/ctx-1/ping";
         rq_params := [("hash", "c9dcb5c5cdc45eb0d1322584648c5105");
                       ("time", "0"); ("paused", "true"); ("chosen_res", "0")] |};
      {| rq_url := "https://video-77.mediadelivery.net/.drm/ctx-1/activate";
         rq_params := [] |} ].
Proof. vm_compute. reflexivity. Qed.

Section ResolutionFacts.
Import PyStr Classifier.

Lemma scan_Forall {B} (m : list ascii -> option (B * nat)) (P : B -> Prop) :
  (forall s a n, m s = Some (a, n) -> P a) ->
  forall skip s, Forall P (scan m skip s).
Proof.
  intros Hm skip s. revert skip.
  induction s as [|c r IH]; intros skip; simpl; [constructor|].
  destruct skip as [|k]; [|apply IH].
  destruct (m (c :: r)) as [[a n]|] eqn:E; [|apply IH].
  constructor; [exact (Hm _ _ _ E) | apply IH].
Qed.

Lemma span_spec (p : ascii -> bool) (s a b : list ascii) :
  span p s = (a, b) -> s = a ++ b /\ forallb p a = true.
Proof.
  revert a b. induction s as [|c r IH]; intros a b; simpl.
  - intros [= <- <-]. split; reflexivity.
  - destruct (p c) eqn:Hc.
    + destruct (span p r) as [a' b'] eqn:E. intros [= <- <-].
      destruct (IH a' b' eq_refl) as [-> Hall].
      split; [reflexivity | simpl; rewrite Hc; exact Hall].
    + intros [= <- <-]. split; reflexivity.
Qed.

Lemma run1_spec (p : ascii -> bool) (s a b : list ascii) :
  run1 p s = Some (a, b) -> s = a ++ b /\ forallb p a = true /\ a <> [].
Proof.
  unfold run1. destruct (span p s) as [a' b'] eqn:E.
  destruct a' as [|c a']; [discriminate|].
  intros [= <- <-]. destruct (span_spec p s _ _ E) as [Hs Hall].
  split; [exact Hs | split; [exact Hall | discriminate]].
Qed.














End ResolutionFacts.

Section BestResolution.
Context {collab : Collaborators}.
Import PyStr Classifier.


End BestResolution.



Example find_resolutions_demo :
  map PyStr.str (find_resolutions Fixture.playlist)
  = ["640x360"; "1280x720"; "854x480"].
Proof. vm_compute. reflexivity. Qed.

(** ** Dispatcher *)

Section DispatcherFacts.
Context {collab : Collaborators}.
Import PyStr Classifier.

(** A console line and an event for the same error: the consumer gets
    one report, on the channel in use. *)
Lemma report_error_run (line url message : string) (w : World) :
  (console line ;; emit_error url message ;; ret false)%py w
  = (Ok false, set_stdout (stdout w ++ [error_report w line url message]) w).
Proof.
  unfold bind, console, emit_error, emit, ret, error_report.
  destruct (JSON_PROGRESS w) eqn:E; cbn; rewrite E; reflexivity.
Qed.

Lemma try_except_Ok {B} (m : M B) (h : exn -> M B) (w w' : World) (b : B) :
  m w = (Ok b, w') -> try_except m h w = (Ok b, w').
Proof. intros Hm. unfold try_except. rewrite Hm. reflexivity. Qed.

Lemma record_failure_total (url dest_folder : string) (e : exn) (w : World) :
  exists w', record_failure url dest_folder e w = (Ok false, w').
Proof.
  unfold record_failure, bind, console, emit_error, emit, mark_downloaded,
    save_history, modify, bind, ret.
  destruct (JSON_PROGRESS w) eqn:E; cbn; rewrite ?E; cbn;
    destruct (history_file_writable w); cbn; eexists; reflexivity.
Qed.

Lemma is_downloaded_recorded (url : string) (w : World) :
  (is_downloaded url w).1 = Ok true ->
  exists r, history w !! url = Some r.
Proof.
  rewrite is_downloaded_run. cbn [fst].
  destruct (history w !! url) as [r|]; [intros _; eexists; reflexivity|].
  rewrite andb_false_r. discriminate.
Qed.

(** The skip branch: one Complete report, nothing else changes. *)
Lemma skip_run (url dest_folder : string) (w : World) (r : HistoryRecord) :
  history w !! url = Some r ->
  exists out,
    (filename <- recorded_filename url ;;
     console ("[SKIP] Already downloaded: " +:+ filename) ;;
     emit_complete filename (os_path_join dest_folder filename) ;;
     ret true)%py w
    = (Ok true, set_stdout (stdout w ++ [out]) w).
Proof.
  intros Hr. unfold bind, recorded_filename, console, emit_complete, emit, ret.
  rewrite Hr. destruct (JSON_PROGRESS w) eqn:E; cbn; rewrite E;
    eexists; reflexivity.
Qed.

(** [download_video] always returns: every exception of a downloader is
    caught and recorded. *)
Lemma download_video_total (url dest_folder : string) (w : World) :
  exists ok w', download_video url dest_folder w = (Ok ok, w').
Proof.
  unfold download_video. destruct (detect_url_type url) as [url_type is_valid].
  destruct (negb is_valid && negb (bool_decide (url_type = unknown))).
  - rewrite report_error_run. eexists _, _. reflexivity.
  - unfold bind at 1. rewrite is_downloaded_run.
    destruct (skip_existing (config w) && _) eqn:Hdone.
    + assert (Hd : (is_downloaded url w).1 = Ok true)
        by (rewrite is_downloaded_run; cbn [fst]; rewrite Hdone; reflexivity).
      destruct (is_downloaded_recorded url w Hd) as [r Hr].
      destruct (skip_run url dest_folder w r Hr) as [out ->].
      eexists _, _. reflexivity.
    + unfold try_except.
      match goal with |- context [match ?m w with _ => _ end] =>
        destruct (m w) as [[ok | e] w1] end.
      * eexists _, _. reflexivity.
      * destruct (record_failure_total url dest_folder e w1) as [w2 ->].
        eexists _, _. reflexivity.
Qed.

(** C1, as amended: a URL that is not attempted never touches the ledger
    or the network.  Unless the skip check finds a completed record for
    it (which can only matter for the tags Unknown and DriveFolder),
    [download_video] returns [False], so the URL counts as failed, and the
    only change to the world is one error report: an Error event on the
    event stream, a console line otherwise. *)
Theorem download_video_not_attempted (url dest_folder : string) (w : World) :
  non_attempted url ->
  let run := download_video url dest_folder w in
  history run.2 = history w
  /\ requests run.2 = requests w
  /\ (detect_url_type url = (bunnycdn, false)
      \/ (is_downloaded url w).1 = Ok false ->
      run = (Ok false,
             set_stdout
               (stdout w ++ [error_report w (refusal url).1 url (refusal url).2]) w)).
Proof.
  intros Hna run.
  assert (Hskip : (is_downloaded url w).1 = Ok true ->
    exists out, (filename <- recorded_filename url ;;
       console ("[SKIP] Already downloaded: " +:+ filename) ;;
       emit_complete filename (os_path_join dest_folder filename) ;;
       ret true)%py w = (Ok true, set_stdout (stdout w ++ [out]) w)).
  { intros Hd. destruct (is_downloaded_recorded url w Hd) as [r Hr].
    exact (skip_run url dest_folder w r Hr). }
  assert (Hcases :
    run = (Ok false,
           set_stdout
             (stdout w ++ [error_report w (refusal url).1 url (refusal url).2]) w)
    \/ ((is_downloaded url w).1 = Ok true
        /\ detect_url_type url <> (bunnycdn, false)
        /\ exists out, run = (Ok true, set_stdout (stdout w ++ [out]) w))).
  { remember run as r eqn:Hr. unfold run, download_video in Hr.
    unfold refusal.
    destruct Hna as [Hty | [Hty | Hty]]; rewrite Hty in Hr |- *;
      cbn [negb andb] in Hr.
    - rewrite bool_decide_eq_true_2 in Hr by reflexivity. cbn [negb andb] in Hr.
      unfold bind at 1 in Hr. rewrite is_downloaded_run in Hr.
      match type of Hr with context [if ?b then _ else _] =>
        destruct b eqn:Hdone end.
      + assert (Hd : (is_downloaded url w).1 = Ok true)
          by (rewrite is_downloaded_run; cbn [fst]; rewrite Hdone; reflexivity).
        right. split; [exact Hd|]. split; [discriminate|].
        destruct (Hskip Hd) as [out Hout]. exists out. rewrite Hr. exact Hout.
      + left. rewrite Hr. apply try_except_Ok. apply report_error_run.
    - unfold bind at 1 in Hr. rewrite is_downloaded_run in Hr.
      match type of Hr with context [if ?b then _ else _] =>
        destruct b eqn:Hdone end.
      + assert (Hd : (is_downloaded url w).1 = Ok true)
          by (rewrite is_downloaded_run; cbn [fst]; rewrite Hdone; reflexivity).
        right. split; [exact Hd|]. split; [discriminate|].
        destruct (Hskip Hd) as [out Hout]. exists out. rewrite Hr. exact Hout.
      + left. rewrite Hr. apply try_except_Ok. apply report_error_run.
    - rewrite bool_decide_eq_false_2 in Hr by discriminate. cbn [negb andb] in Hr.
      left. rewrite Hr. apply report_error_run. }
  destruct Hcases as [Hrun | (Hd & Hnb & out & Hrun)].
  - rewrite Hrun. split; [reflexivity|]. split; [reflexivity|].
    intros _. reflexivity.
  - rewrite Hrun. split; [reflexivity|]. split; [reflexivity|].
    intros [Hb | Hno]; [contradiction|]. rewrite Hd in Hno. discriminate Hno.
Qed.

(** X1: a single URL's failure never aborts the batch: [download_video]
    returns a boolean in every world, whatever the downloaders do. *)
Theorem download_video_always_returns (url dest_folder : string) (w : World) :
  exists ok w', download_video url dest_folder w = (Ok ok, w').
Proof. exact (download_video_total url dest_folder w). Qed.

Lemma fetch_and_mark_run (url dest_folder : string) (op : M string) (w : World) :
  fetch_and_mark url dest_folder op w
  = match download_with_retry op w with
    | (Ok filename, w1) =>
        (Ok true,
         (console ("[OK] Downloaded: " +:+ filename)
            (mark_downloaded url filename "completed" (Some dest_folder) w1).2).2)
    | (Raise e, w1) => (Raise e, w1)
    end.
Proof.
  unfold fetch_and_mark. unfold bind at 1.
  destruct (download_with_retry op w) as [[filename | e] w1]; [|reflexivity].
  pose proof (mark_downloaded_result url filename "completed" (Some dest_folder) w1)
    as Hmark.
  unfold bind.
  destruct (mark_downloaded url filename "completed" (Some dest_folder) w1)
    as [r w2].
  cbn [fst snd] in *. subst r. unfold console, ret.
  destruct (JSON_PROGRESS w2); reflexivity.
Qed.

Lemma console_history (line : string) (w : World) :
  history (console line w).2 = history w.
Proof. unfold console. destruct (JSON_PROGRESS w); reflexivity. Qed.

Lemma record_failure_run (url dest_folder : string) (e : exn) (w : World) :
  (record_failure url dest_folder e w).1 = Ok false
  /\ history (record_failure url dest_folder e w).2
     = <[url := record_in w (exn_str e) "failed" (Some dest_folder)]> (history w)
  /\ stdout (record_failure url dest_folder e w).2
     = stdout w ++ [error_report w
                      ("[ERROR] Failed to download " +:+ url +:+ ": " +:+ exn_str e)
                      url (exn_str e)].
Proof.
  unfold record_failure, bind, console, emit_error, emit, mark_downloaded,
    save_history, modify, bind, ret, error_report, record_in.
  destruct (JSON_PROGRESS w) eqn:E; cbn; rewrite ?E; cbn;
    destruct (history_file_writable w); cbn; repeat split; reflexivity.
Qed.

(** X2: for the tags whose downloader is wrapped in the retry executor, once
    the skip check has passed the ledger records the outcome: the file name
    under status [completed] when the retried download returns, the error
    text under status [failed], with one error report and the result
    [False], when it raises. *)
Theorem download_video_records_outcome (url dest_folder : string) (w : World)
    (url_type : UrlType) (op : M string) :
  detect_url_type url = (url_type, true) ->
  retried_downloader w url_type url dest_folder = Some op ->
  (is_downloaded url w).1 = Ok false ->
  let run := download_video url dest_folder w in
  match download_with_retry op w with
  | (Ok filename, w1) =>
      run.1 = Ok true
      /\ history run.2
         = <[url := record_in w1 filename "completed" (Some dest_folder)]> (history w1)
  | (Raise e, w1) =>
      run.1 = Ok false
      /\ history run.2
         = <[url := record_in w1 (exn_str e) "failed" (Some dest_folder)]> (history w1)
      /\ stdout run.2
         = stdout w1 ++ [error_report w1
                           ("[ERROR] Failed to download " +:+ url +:+ ": " +:+ exn_str e)
                           url (exn_str e)]
  end.
Proof.
  intros Hty Hop Hskip run.
  assert (Hrun : run = try_except (fetch_and_mark url dest_folder op)
                         (record_failure url dest_folder) w).
  { unfold run, download_video. rewrite Hty. cbn [negb andb].
    unfold bind at 1. rewrite is_downloaded_run in *. cbn [fst] in Hskip.
    injection Hskip as ->.
    destruct url_type; try discriminate Hop; injection Hop as <-; reflexivity. }
  rewrite Hrun. unfold try_except. rewrite fetch_and_mark_run.
  destruct (download_with_retry op w) as [[filename | e] w1].
  - split; [reflexivity|]. cbn [snd].
    rewrite console_history, mark_downloaded_history. reflexivity.
  - destruct (record_failure_run url dest_folder e w1) as (Hres & Hhist & Hout).
    destruct (record_failure url dest_folder e w1) as [r w2]. cbn [fst snd] in *.
    split; [exact Hres|]. split; [exact Hhist | exact Hout].
Qed.

End DispatcherFacts.

(** X2 on a media URL whose download times out at each of the three
    attempts: a failed record holds the last error. *)
Lemma download_video_records_outcome_witness :
  let c' := Fixture.collaborators_with (Fixture.constant_reply "") None
              (fun _ _ => Fixture.flaky 9) in
  let run := @download_video c' "http://host/movie.mp4" "Downloads"
               (Fixture.world0 3 5 true) in
  run.1 = Ok false
  /\ (rec_status <$> history run.2 !! "http://host/movie.mp4") = Some (Some "failed")
  /\ (rec_filename <$> history run.2 !! "http://host/movie.mp4")
     = Some (Some "timed out #2").
Proof.
  intros c' run.
  pose proof (@download_video_records_outcome c' "http://host/movie.mp4" "Downloads"
                (Fixture.world0 3 5 true) Classifier.generic_media (Fixture.flaky 9)
                eq_refl eq_refl eq_refl) as Hout.
  cbv zeta in Hout. fold run in Hout.
  destruct (download_with_retry (Fixture.flaky 9) (Fixture.world0 3 5 true))
    as [[filename | e] w1] eqn:Hretry; [discriminate Hretry|].
  injection Hretry as <- <-.
  destruct Hout as (Hres & Hhist & _).
  split; [exact Hres|]. rewrite Hhist, lookup_insert_eq. split; reflexivity.
Defined.

(** The amended C1 on an Unknown URL in a fresh process with the event
    stream on: one Error event, [False], no ledger entry, no request. *)
Lemma download_video_not_attempted_witness :
  let c := Fixture.collaborators (Fixture.constant_reply "") None in
  let w := Fixture.world0 3 5 true in
  let run := @download_video c "https://example.com/page" "Downloads" w in
  history run.2 = history w
  /\ requests run.2 = requests w
  /\ run = (Ok false,
            set_stdout
              (stdout w ++
               [Json (EvError "https://example.com/page" "Unsupported URL type")]) w).
Proof.
  intros c w run.
  destruct (@download_video_not_attempted c "https://example.com/page" "Downloads" w)
    as (Hhist & Hreq & Hrun).
  - left. vm_compute. reflexivity.
  - split; [exact Hhist|]. split; [exact Hreq|].
    unfold run. rewrite Hrun; [vm_compute; reflexivity|].
    right. vm_compute. reflexivity.
Defined.

(** C1, as stated, fails: in a fresh process an Unknown URL, a Drive folder
    URL and a DirectVideo URL with an empty guid are each reported and
    counted as failed, but no failed entry is recorded for them: the ledger
    stays empty. *)
Lemma download_video_records_no_failure :
  let c := Fixture.collaborators (Fixture.constant_reply "") None in
  let w := Fixture.world0 3 5 true in
  Forall
    (fun url =>
       non_attempted url
       /\ (@download_video c url "Downloads" w).1 = Ok false
       /\ history (@download_video c url "Downloads" w).2 = ∅
       /\ ~ AsStated.records_failed url (@download_video c url "Downloads" w).2)
    ["https://example.com/page";
     "https://drive.google.com/drive/folders/XY_z";
     "https://iframe.mediadelivery.net/embed/12345/"].
Proof.
  intros c w.
  assert (Hnone : forall url w',
            history w' = ∅ -> ~ AsStated.records_failed url w').
  { intros url w' Hempty (r & Hr & _). rewrite Hempty in Hr.
    rewrite lookup_empty in Hr. discriminate Hr. }
  apply List.Forall_cons; [| apply List.Forall_cons; [| apply List.Forall_cons;
                                                       [| apply List.Forall_nil]]].
  - split; [left; vm_compute; reflexivity|].
    split; [vm_compute; reflexivity|].
    split; [| apply Hnone]; vm_compute; reflexivity.
  - split; [right; left; vm_compute; reflexivity|].
    split; [vm_compute; reflexivity|].
    split; [| apply Hnone]; vm_compute; reflexivity.
  - split; [right; right; vm_compute; reflexivity|].
    split; [vm_compute; reflexivity|].
    split; [| apply Hnone]; vm_compute; reflexivity.
Qed.

(** ** The batch *)

Section BatchFacts.
Context {collab : Collaborators}.
Import PyStr Classifier.

Lemma download_all_run (urls : list string) (output : string)
    (successful failed : Z) (w : World) :
  download_all urls output successful failed w
  = (Ok (successful + Z.of_nat (count_occ bool_dec (outcomes urls output w) true),
         failed + Z.of_nat (count_occ bool_dec (outcomes urls output w) false)),
     after_all urls output w)
  /\ length (outcomes urls output w) = length urls.
Proof.
  revert successful failed w.
  induction urls as [|url rest IH]; intros successful failed w; simpl.
  - split; [| reflexivity]. unfold ret. do 2 f_equal; f_equal; lia.
  - destruct (download_video_total url output w) as (ok & w' & Hrun).
    unfold bind. rewrite Hrun. cbn [snd].
    destruct ok.
    + destruct (IH (successful + 1) failed w') as [IH1 IH2].
      rewrite IH1. split; [| simpl; rewrite IH2; reflexivity].
      f_equal. f_equal. f_equal; simpl; lia.
    + destruct (IH successful (failed + 1) w') as [IH1 IH2].
      rewrite IH1. split; [| simpl; rewrite IH2; reflexivity].
      f_equal. f_equal. f_equal; simpl; lia.
Qed.

Lemma count_false_zero (l : list bool) :
  count_occ bool_dec l false = 0%nat <-> Forall (fun ok => ok = true) l.
Proof.
  induction l as [|b l IH]; simpl.
  - split; [constructor | reflexivity].
  - destruct b; simpl.
    + rewrite IH. split; [intros Hl; constructor; [reflexivity | exact Hl]|].
      intros Hl. inversion Hl; assumption.
    + split; [discriminate|]. intros Hl. inversion Hl; discriminate.
Qed.

(** The exit status of [main] once the set-up has run. *)
Lemma exit_status_after_setup (args : Args) (w w1 : World) :
  setup args w = (Ok tt, w1) ->
  exit_status args w
  = match requested_urls args with
    | None | Some [] => 1
    | Some urls =>
        if (count_occ bool_dec (outcomes urls (arg_output args) w1) false =? 0)%nat
        then 0 else 1
    end.
Proof.
  intros Hsetup. unfold exit_status, main. unfold bind at 1. rewrite Hsetup.
  destruct (requested_urls args) as [[|url rest]|].
  - unfold bind, console, ret. destruct (JSON_PROGRESS w1); reflexivity.
  - unfold bind at 1.
    destruct (download_all_run (url :: rest) (arg_output args) 0 0 w1) as [-> _].
    generalize (count_occ bool_dec (outcomes (url :: rest) (arg_output args) w1) false).
    generalize (count_occ bool_dec (outcomes (url :: rest) (arg_output args) w1) true).
    generalize (after_all (url :: rest) (arg_output args) w1).
    intros w2 ns nf. unfold bind, console, ret.
    assert (Hz : (0 + Z.of_nat nf =? 0) = (nf =? 0)%nat)
      by (destruct nf; reflexivity).
    destruct (JSON_PROGRESS w2); cbn; rewrite Hz; destruct (nf =? 0)%nat;
      reflexivity.
  - unfold bind, console, ret. destruct (JSON_PROGRESS w1); reflexivity.
Qed.

Lemma exit_status_setup_raises (args : Args) (w w1 : World) (e : exn) :
  setup args w = (Raise e, w1) -> exit_status args w = 1.
Proof.
  intros Hsetup. unfold exit_status, main. unfold bind at 1. rewrite Hsetup.
  reflexivity.
Qed.

(** C8: the exit status is 0 or 1.  It is 0 exactly when [main] got as
    far as the download loop with at least one URL and [download_video]
    returned [True] for every URL dispatched (a skip returns [True]); it
    is 1 when some dispatched URL ended failed, and 1 when no URL was
    obtained from the arguments. *)
Theorem main_exit_status (args : Args) (w : World) :
  let status := exit_status args w in
  (status = 0 \/ status = 1)
  /\ (status = 0 <->
      exists w1 urls,
        setup args w = (Ok tt, w1)
        /\ requested_urls args = Some urls
        /\ urls <> []
        /\ length (outcomes urls (arg_output args) w1) = length urls
        /\ Forall (fun ok => ok = true) (outcomes urls (arg_output args) w1))
  /\ (forall w1 urls,
        setup args w = (Ok tt, w1) ->
        requested_urls args = Some urls ->
        false ∈ outcomes urls (arg_output args) w1 ->
        status = 1)
  /\ (requested_urls args = None \/ requested_urls args = Some [] ->
      status = 1).
Proof.
  intros status.
  destruct (setup args w) as [[[] | e] w1] eqn:Hsetup.
  2:{ pose proof (exit_status_setup_raises args w w1 e Hsetup) as Hone.
      fold status in Hone.
      split; [right; exact Hone|].
      split; [split; [rewrite Hone; discriminate | intros (? & ? & Habs & _); discriminate Habs]|].
      split; intros; exact Hone. }
  pose proof (exit_status_after_setup args w w1 Hsetup) as Hst. fold status in Hst.
  split; [| split; [| split]].
  - rewrite Hst. destruct (requested_urls args) as [[|url rest]|]; auto.
    destruct (_ =? _)%nat; auto.
  - rewrite Hst. split.
    + destruct (requested_urls args) as [[|url rest]|] eqn:Hurls; try discriminate.
      destruct (_ =? _)%nat eqn:Hz; [|discriminate]. intros _.
      apply Nat.eqb_eq, count_false_zero in Hz.
      exists w1, (url :: rest). repeat split; try assumption; try discriminate.
      apply download_all_run with (successful := 0) (failed := 0).
    + intros (w1' & urls & [= <-] & -> & Hne & _ & Hall).
      destruct urls as [|url rest]; [contradiction|].
      apply count_false_zero in Hall. rewrite Hall. reflexivity.
  - intros w1' urls [= <-] Hurls Hin. rewrite Hst, Hurls.
    destruct urls as [|url rest]; [reflexivity|].
    destruct (_ =? _)%nat eqn:Hz; [|reflexivity].
    apply Nat.eqb_eq, count_false_zero in Hz.
    rewrite Forall_forall in Hz. specialize (Hz _ Hin). discriminate Hz.
  - rewrite Hst. intros [-> | ->]; reflexivity.
Qed.

End BatchFacts.

(** The end-to-end example of the specification: an Unknown URL, a media
    URL and a URL already completed in the ledger give exit status 1, one
    Error event and two Complete events, in dispatch order. *)
Example end_to_end_demo :
  let c := Fixture.collaborators (Fixture.constant_reply "")
             (Some "see https://example.com/page, http://host/movie.mp4 and http://host/done.mp4.") in
  let w := set_history_file (Some Fixture.ledger0) (Fixture.world0 3 5 false) in
  let args := Fixture.args0 None (Some "urls.txt") in
  @exit_status c args w = 1
  /\ stdout (@main c args w).2
     = [ Json (EvError "https://example.com/page" "Unsupported URL type");
         Json (EvComplete "media.bin" "Downloads/media.bin");
         Json (EvComplete "done.mp4" "Downloads/done.mp4") ]
  /\ @outcomes c
       ["https://example.com/page"; "http://host/movie.mp4"; "http://host/done.mp4"]
       "Downloads" (@setup c args w).2
     = [false; true; true].
Proof. vm_compute. repeat split. Qed.

Example all_succeed_demo :
  @exit_status
    (Fixture.collaborators (Fixture.constant_reply "") None)
    (Fixture.args0 (Some "http://host/movie.mp4") None)
    (Fixture.world0 3 5 true)
  = 0.
Proof. vm_compute. reflexivity. Qed.

(** ** File names *)

Section NamingFacts.
Import PyStr Naming.

Lemma replace_invalid_map (s : list ascii) :
  replace_invalid s = map (fun d => if is_invalid d then "_"%char else d) s.
Proof.
  unfold replace_invalid, invalid_chars. cbn [chars list_ascii_of_string app fold_left].
  unfold replace_char. rewrite !map_map. apply map_ext.
  intros [[] [] [] [] [] [] [] []]; reflexivity.
Qed.

Lemma replace_invalid_valid (s : list ascii) :
  Forall (fun c => is_invalid c = false) (replace_invalid s).
Proof.
  rewrite replace_invalid_map. apply Forall_map, Forall_forall. intros d _.
  destruct (is_invalid d) eqn:E; [reflexivity | exact E].
Qed.

Lemma replace_invalid_fixed (s : list ascii) :
  Forall (fun c => is_invalid c = false) s -> replace_invalid s = s.
Proof.
  intros Hs. rewrite replace_invalid_map.
  induction Hs as [|c s Hc _ IH]; simpl; [reflexivity|].
  rewrite Hc, IH. reflexivity.
Qed.

Lemma replace_invalid_length (s : list ascii) :
  length (replace_invalid s) = length s.
Proof. rewrite replace_invalid_map. apply length_map. Qed.

Lemma lstrip_suffix (p : ascii -> bool) (s : list ascii) :
  exists a, s = a ++ lstrip p s /\ forallb p a = true.
Proof.
  unfold lstrip. destruct (span p s) as [a b] eqn:E.
  exists a. apply span_spec. exact E.
Qed.

Lemma span_head (p : ascii -> bool) (s a : list ascii) (c : ascii) (r : list ascii) :
  span p s = (a, c :: r) -> p c = false.
Proof.
  revert a. induction s as [|d s IH]; intros a; simpl; [discriminate|].
  destruct (p d) eqn:Hd.
  - destruct (span p s) as [a' b'] eqn:E. intros [= <- ->]. exact (IH a' eq_refl).
  - intros [= <- <- <-]. exact Hd.
Qed.

Lemma lstrip_head (p : ascii -> bool) (s : list ascii) (c : ascii) (r : list ascii) :
  lstrip p s = c :: r -> p c = false.
Proof.
  unfold lstrip. destruct (span p s) as [a b] eqn:E. simpl. intros ->.
  exact (span_head p s a c r E).
Qed.

Lemma rstrip_head (p : ascii -> bool) (s : list ascii) (c : ascii) (r : list ascii) :
  rstrip p s = c :: r -> exists r', s = c :: r'.
Proof.
  intros E. destruct (rstrip_split p s) as (t & Hs & _).
  rewrite E in Hs. simpl in Hs. eexists. exact Hs.
Qed.

(** A string whose last character is kept is left as it is. *)
Lemma rstrip_keep (p : ascii -> bool) (s : list ascii) (c : ascii) :
  p c = false -> rstrip p (s ++ [c]) = s ++ [c].
Proof.
  intros Hc. induction s as [|d s IH]; simpl.
  - rewrite Hc. reflexivity.
  - rewrite IH. destruct (s ++ [c]) eqn:E; [destruct s; discriminate E | reflexivity].
Qed.

Lemma rstrip_fixed (p : ascii -> bool) (s : list ascii) :
  (forall pre c, s = pre ++ [c] -> p c = false) -> rstrip p s = s.
Proof.
  intros Hlast. destruct s as [|d s] using rev_ind; [reflexivity|].
  apply rstrip_keep. exact (Hlast _ _ eq_refl).
Qed.

Lemma lstrip_fixed (p : ascii -> bool) (s : list ascii) :
  (forall c r, s = c :: r -> p c = false) -> lstrip p s = s.
Proof.
  intros Hhead. unfold lstrip. destruct s as [|c r]; [reflexivity|].
  simpl. rewrite (Hhead c r eq_refl). reflexivity.
Qed.

(** What [strip] returns neither starts nor ends with a stripped
    character, and is a stretch of the argument. *)
Lemma strip_spec (p : ascii -> bool) (s : list ascii) :
  (exists a b, s = a ++ strip p s ++ b)
  /\ (forall c r, strip p s = c :: r -> p c = false)
  /\ (forall pre c, strip p s = pre ++ [c] -> p c = false).
Proof.
  unfold strip. split; [| split].
  - destruct (lstrip_suffix p s) as (a & Ha & _).
    destruct (rstrip_split p (lstrip p s)) as (b & Hb & _).
    exists a, b. rewrite <- Hb. exact Ha.
  - intros c r E. destruct (rstrip_head p _ c r E) as [r' Hr'].
    exact (lstrip_head p s c r' Hr').
  - intros pre c E. exact (rstrip_last p _ pre c E).
Qed.

Lemma rfind_spec (c : ascii) (s : list ascii) :
  (rfind c s = -1 /\ c ∉ s)
  \/ (exists pre post,
        s = pre ++ c :: post /\ c ∉ post /\ rfind c s = Z.of_nat (length pre)).
Proof.
  induction s as [|d s IH]; simpl.
  - left. split; [reflexivity | apply not_elem_of_nil].
  - destruct IH as [[Hr Hnot] | (pre & post & -> & Hnot & Hr)].
    + rewrite Hr. simpl. destruct (ceqb d c) eqn:E.
      * apply Ascii.eqb_eq in E. subst d. right. exists [], s.
        split; [reflexivity | split; [exact Hnot | reflexivity]].
      * left. split; [reflexivity|]. apply not_elem_of_cons. split; [| exact Hnot].
        intros ->. unfold ceqb in E. rewrite Ascii.eqb_refl in E. discriminate E.
    + rewrite Hr. destruct (0 <=? Z.of_nat (length pre)) eqn:E;
        [| apply Z.leb_gt in E; lia].
      right. exists (d :: pre), post.
      split; [reflexivity | split; [exact Hnot | simpl length; lia]].
Qed.

Lemma rfind_absent (c : ascii) (s : list ascii) : c ∉ s -> rfind c s = -1.
Proof.
  intros Hnot. destruct (rfind_spec c s) as [[Hr _] | (pre & post & -> & _ & _)];
    [exact Hr|]. exfalso. apply Hnot. apply elem_of_app. right. left.
Qed.

Lemma rfind_last (c : ascii) (pre post : list ascii) :
  c ∉ post -> rfind c (pre ++ c :: post) = Z.of_nat (length pre).
Proof.
  intros Hnot. induction pre as [|d pre IH]; simpl.
  - rewrite (rfind_absent c post Hnot). simpl.
    unfold ceqb. rewrite Ascii.eqb_refl. reflexivity.
  - rewrite IH. destruct (0 <=? Z.of_nat (length pre)) eqn:E;
      [lia | apply Z.leb_gt in E; lia].
Qed.

(** [splitext] on a name without separator that starts with something
    else than a dot: no dot, no extension; otherwise the extension starts
    at the last dot. *)
Lemma splitext_plain (p : list ascii) :
  "/"%char ∉ p ->
  (forall c r, p = c :: r -> c <> "."%char) ->
  ("."%char ∉ p /\ splitext p = (p, []))
  \/ (exists pre post,
        p = pre ++ "."%char :: post /\ "."%char ∉ post /\ pre <> []
        /\ splitext p = (pre, "."%char :: post)).
Proof.
  intros Hsep Hhead. unfold splitext. rewrite (rfind_absent _ _ Hsep).
  destruct (rfind_spec "." p) as [[Hr Hnot] | (pre & post & Hp & Hnot & Hr)].
  - left. rewrite Hr. split; [exact Hnot | reflexivity].
  - right. exists pre, post. rewrite Hr.
    destruct pre as [|d pre].
    { exfalso. simpl in Hp. exact (Hhead _ _ Hp eq_refl). }
    split; [exact Hp|]. split; [exact Hnot|]. split; [discriminate|].
    assert (Hd : d <> "."%char) by (apply (Hhead d (pre ++ "."%char :: post)); exact Hp).
    replace (-1 <? Z.of_nat (length (d :: pre))) with true
      by (symmetry; apply Z.ltb_lt; lia).
    replace (Z.to_nat (Z.of_nat (length (d :: pre)) - (-1 + 1)))
      with (length (d :: pre)) by lia.
    replace (Z.to_nat (-1 + 1)) with 0%nat by lia.
    rewrite Nat2Z.id. subst p. rewrite drop_0, take_app_length, drop_app_length.
    simpl. destruct (ceqb d ".") eqn:E; [|reflexivity].
    apply Ascii.eqb_eq in E. contradiction.
Qed.

End NamingFacts.

Section SanitizeFacts.
Import PyStr Naming.

Lemma truncate_take (n : nat) (name : list ascii) :
  (if (n <? length name)%nat then take n name else name) = take n name.
Proof.
  destruct (n <? length name)%nat eqn:E; [reflexivity|].
  apply Nat.ltb_ge in E. symmetry. apply take_ge. exact E.
Qed.

Lemma one_of_dot_space (c : ascii) :
  one_of ". " c = false <-> c <> "."%char /\ c <> " "%char.
Proof.
  unfold one_of. cbn [chars list_ascii_of_string existsb]. rewrite orb_false_r.
  rewrite orb_false_iff. unfold ceqb. rewrite !Ascii.eqb_neq. reflexivity.
Qed.

(** The cleaned name [p] of [sanitize_filename], and the two shapes of
    the result: without a dot in [p], the first 200 characters of [p];
    otherwise the first 200 characters of what precedes the last dot,
    followed by the extension. *)
Lemma sanitize_filename_cases (filename : list ascii) :
  let p := strip (one_of ". ") (replace_invalid filename) in
  Forall (fun c => is_invalid c = false) p
  /\ (length p <= length filename)%nat
  /\ (forall c r, p = c :: r -> one_of ". " c = false)
  /\ (forall pre c, p = pre ++ [c] -> one_of ". " c = false)
  /\ (("."%char ∉ p /\ sanitize_filename filename = take 200 p)
      \/ (exists pre post,
            p = pre ++ "."%char :: post /\ "."%char ∉ post
            /\ pre <> [] /\ post <> []
            /\ sanitize_filename filename = take 200 pre ++ "."%char :: post)).
Proof.
  intros p.
  destruct (strip_spec (one_of ". ") (replace_invalid filename))
    as ((a & b & Hstretch) & Hhead & Hlast).
  fold p in Hstretch, Hhead, Hlast.
  assert (Hvalid : Forall (fun c => is_invalid c = false) p).
  { pose proof (replace_invalid_valid filename) as Hq. rewrite Hstretch in Hq.
    apply Forall_app in Hq as [_ Hq]. apply Forall_app in Hq as [Hq _]. exact Hq. }
  assert (Hlen : (length p <= length filename)%nat).
  { rewrite <- (replace_invalid_length filename), Hstretch, !length_app. lia. }
  assert (Hsep : "/"%char ∉ p).
  { intros Hin. rewrite Forall_forall in Hvalid. specialize (Hvalid _ Hin).
    discriminate Hvalid. }
  assert (Hnodot : forall c r, p = c :: r -> c <> "."%char).
  { intros c r Hp. apply (Hhead c r) in Hp. apply one_of_dot_space in Hp. tauto. }
  split; [exact Hvalid|]. split; [exact Hlen|].
  split; [exact Hhead|]. split; [exact Hlast|].
  unfold sanitize_filename. fold p.
  destruct (splitext_plain p Hsep Hnodot)
    as [[Hnot Hsplit] | (pre & post & Hp & Hnot & Hpre & Hsplit)].
  - left. rewrite Hsplit, truncate_take, app_nil_r. split; [exact Hnot | reflexivity].
  - right. exists pre, post. rewrite Hsplit, truncate_take.
    repeat split; try assumption.
    intros ->. specialize (Hlast pre "."%char Hp). discriminate Hlast.
Qed.

(** X3: the name [sanitize_filename] returns holds none of the nine
    invalid characters, starts with neither a dot nor a space, does not end
    with a dot, is no longer than the name given, and is a stem of at most
    200 characters followed by an extension that is empty or a dot and a
    non-empty text without dot. *)
Theorem sanitize_filename_shape (filename : list ascii) :
  let r := sanitize_filename filename in
  Forall (fun c => is_invalid c = false) r
  /\ (forall c rest, r = c :: rest -> c <> "."%char /\ c <> " "%char)
  /\ (forall pre, r <> pre ++ ["."%char])
  /\ (exists stem ext,
        r = stem ++ ext /\ (length stem <= 200)%nat
        /\ (ext = [] \/ exists e, ext = "."%char :: e /\ e <> [] /\ "."%char ∉ e))
  /\ (length r <= length filename)%nat.
Proof.
  intros r. unfold r.
  destruct (sanitize_filename_cases filename)
    as (Hvalid & Hlen & Hhead & Hlast
        & [[Hnot ->] | (pre & post & Hp & Hnot & Hpre & Hpost & ->)]).
  - set (p := strip (one_of ". ") (replace_invalid filename)) in *.
    split; [| split; [| split; [| split]]].
    + apply Forall_take. exact Hvalid.
    + intros c rest E. apply one_of_dot_space.
      destruct p as [|d p']; [discriminate E|]. simpl in E. injection E as <- _.
      exact (Hhead d p' eq_refl).
    + intros pre E. apply Hnot.
      assert (Hin : "."%char ∈ take 200 p) by (rewrite E; apply elem_of_app; right; left).
      rewrite <- (take_drop 200 p). apply elem_of_app. left. exact Hin.
    + exists (take 200 p), []. rewrite app_nil_r.
      split; [reflexivity|]. split; [rewrite length_take; lia | left; reflexivity].
    + rewrite length_take. lia.
  - set (p := strip (one_of ". ") (replace_invalid filename)) in *.
    rewrite Hp in Hvalid, Hlen, Hhead. rewrite length_app in Hlen. simpl in Hlen.
    apply Forall_app in Hvalid as [Hv1 Hv2].
    split; [| split; [| split; [| split]]].
    + apply Forall_app. split; [apply Forall_take; exact Hv1 | exact Hv2].
    + intros c rest E. apply one_of_dot_space.
      destruct pre as [|d pre']; [contradiction|]. simpl in E. injection E as <- _.
      exact (Hhead d _ eq_refl).
    + intros pre' E.
      destruct post as [|x post'] using rev_ind; [contradiction|].
      change ("."%char :: post' ++ [x]) with (("."%char :: post') ++ [x]) in E.
      rewrite app_assoc in E. apply app_inj_tail in E as [_ ->].
      apply Hnot. apply elem_of_app. right. left.
    + exists (take 200 pre), ("."%char :: post).
      split; [reflexivity|]. split; [rewrite length_take; lia|].
      right. exists post. repeat split; assumption.
    + rewrite length_app, length_take. cbn [length].
      pose proof (Nat.le_min_r 200 (length pre)). lia.
Qed.

(** X4: cleaning a cleaned name changes nothing, provided the cleaned
    name of the first pass has an extension or at most 200 characters (a
    longer name without extension is cut, and the cut may leave a trailing
    space for a second pass to strip). *)
Theorem sanitize_filename_idempotent (filename : list ascii) :
  let p := strip (one_of ". ") (replace_invalid filename) in
  "."%char ∈ p \/ (length p <= 200)%nat ->
  sanitize_filename (sanitize_filename filename) = sanitize_filename filename.
Proof.
  intros p Hcond.
  pose proof (sanitize_filename_cases filename) as Hcases.
  cbv zeta in Hcases. fold p in Hcases.
  destruct Hcases
    as (Hvalid & _ & Hhead & Hlast
        & [[Hnot Hr] | (pre & post & Hp & Hnot & Hpre & Hpost & Hr)]).
  - (* no extension: the name is short, and is returned as it is *)
    destruct Hcond as [Hin | Hshort]; [contradiction|].
    rewrite Hr, (take_ge p 200 Hshort).
    pose proof (sanitize_filename_cases p) as Hcases2. cbv zeta in Hcases2.
    destruct Hcases2
      as (_ & _ & _ & _ & [[_ Hr2] | (pre & post & Hp2 & _ & _ & _ & _)]).
    + rewrite Hr2, (replace_invalid_fixed p Hvalid).
      unfold strip. rewrite (lstrip_fixed _ p Hhead), (rstrip_fixed _ p Hlast).
      apply take_ge. exact Hshort.
    + exfalso. rewrite (replace_invalid_fixed p Hvalid) in Hp2.
      unfold strip in Hp2.
      rewrite (lstrip_fixed _ p Hhead), (rstrip_fixed _ p Hlast) in Hp2.
      apply Hnot. rewrite Hp2. apply elem_of_app. right. left.
  - (* an extension: the stem is cut to 200 and the extension kept *)
    rewrite Hr.
    set (r := take 200 pre ++ "."%char :: post).
    assert (Hrvalid : Forall (fun c => is_invalid c = false) r).
    { rewrite Hp in Hvalid. apply Forall_app in Hvalid as [Hv1 Hv2].
      apply Forall_app. split; [apply Forall_take; exact Hv1 | exact Hv2]. }
    assert (Hrhead : forall c rest, r = c :: rest -> one_of ". " c = false).
    { intros c rest E. destruct pre as [|d pre']; [contradiction|].
      unfold r in E. simpl in E. injection E as <- _.
      apply (Hhead d (pre' ++ "."%char :: post)). exact Hp. }
    assert (Hrlast : forall pre' c, r = pre' ++ [c] -> one_of ". " c = false).
    { intros pre' c E. destruct post as [|x post'] using rev_ind; [contradiction|].
      unfold r in E.
      change ("."%char :: post' ++ [x]) with (("."%char :: post') ++ [x]) in E.
      rewrite app_assoc in E. apply app_inj_tail in E as [_ <-].
      apply (Hlast (pre ++ "."%char :: post') x). rewrite Hp, <- app_assoc.
      reflexivity. }
    assert (Hstrip : strip (one_of ". ") (replace_invalid r) = r).
    { rewrite (replace_invalid_fixed r Hrvalid). unfold strip.
      rewrite (lstrip_fixed _ r Hrhead), (rstrip_fixed _ r Hrlast). reflexivity. }
    assert (Hsep : "/"%char ∉ r).
    { intros Hin. rewrite Forall_forall in Hrvalid. specialize (Hrvalid _ Hin).
      discriminate Hrvalid. }
    assert (Hnodot : forall c rest, r = c :: rest -> c <> "."%char).
    { intros c rest E. apply Hrhead in E. apply one_of_dot_space in E. tauto. }
    unfold sanitize_filename at 1. rewrite Hstrip.
    destruct (splitext_plain r Hsep Hnodot)
      as [[Hno _] | (pre2 & post2 & Hr2 & Hnot2 & _ & Hsplit)].
    + exfalso. apply Hno. unfold r. apply elem_of_app. right. left.
    + (* the last dot of [r] is the one that starts the extension *)
      assert (Hsame : pre2 = take 200 pre /\ post2 = post).
      { pose proof (rfind_last "." (take 200 pre) post Hnot) as H1.
        pose proof (rfind_last "." pre2 post2 Hnot2) as H2.
        fold r in H1. rewrite <- Hr2 in H2. rewrite H1 in H2.
        apply Nat2Z.inj in H2.
        unfold r in Hr2. apply app_inj_1 in Hr2 as [E1 E2]; [| exact H2].
        injection E2 as E2. split; [symmetry; exact E1 | symmetry; exact E2]. }
      destruct Hsame as [-> ->]. rewrite Hsplit, truncate_take.
      rewrite take_take. replace (200 `min` 200)%nat with 200%nat by reflexivity.
      reflexivity.
Qed.

End SanitizeFacts.

(** X4 on a name with an extension: the colon is replaced, the outer
    space and dot are stripped, and a second pass finds nothing to do. *)
Lemma sanitize_filename_idempotent_witness :
  Naming.sanitize_filename (PyStr.chars " report:v2.pdf.")
  = PyStr.chars "report_v2.pdf"
  /\ Naming.sanitize_filename
       (Naming.sanitize_filename (PyStr.chars " report:v2.pdf."))
     = Naming.sanitize_filename (PyStr.chars " report:v2.pdf.").
Proof.
  split; [reflexivity|].
  apply (sanitize_filename_idempotent (PyStr.chars " report:v2.pdf.")).
  right. vm_compute. lia.
Defined.

(** Without an extension the cut at 200 characters can leave a space at
    the end, which a second pass strips: the side condition of X4 is
    needed. *)
Example sanitize_filename_second_pass :
  let name := repeat "a"%char 199 ++ PyStr.chars " b" in
  length (Naming.sanitize_filename name) = 200%nat
  /\ length (Naming.sanitize_filename (Naming.sanitize_filename name)) = 199%nat.
Proof. vm_compute. split; reflexivity. Qed.

Section FormatFacts.
Import PyStr Naming.

Lemma lstrip_app_all (p : ascii -> bool) (a s : list ascii) :
  forallb p a = true -> lstrip p (a ++ s) = lstrip p s.
Proof.
  unfold lstrip. induction a as [|c a IH]; simpl; [reflexivity|].
  intros H. apply andb_true_iff in H as [Hc Ha]. rewrite Hc.
  specialize (IH Ha). destruct (span p (a ++ s)) as [x y]. exact IH.
Qed.

Lemma lstrip_app_keep (p : ascii -> bool) (q s : list ascii) :
  forallb p q = false -> lstrip p (q ++ s) = lstrip p q ++ s /\ lstrip p q <> [].
Proof.
  unfold lstrip. induction q as [|c q IH]; simpl; [discriminate|].
  destruct (p c) eqn:Hc; simpl.
  - intros H. destruct (IH H) as [IH1 IH2].
    destruct (span p (q ++ s)) as [x y], (span p q) as [x' y']. split; assumption.
  - intros _. split; [reflexivity | discriminate].
Qed.

Lemma replace_invalid_app (a b : list ascii) :
  replace_invalid (a ++ b) = replace_invalid a ++ replace_invalid b.
Proof. rewrite !replace_invalid_map. apply map_app. Qed.

Lemma replaced_blank (d : ascii) :
  one_of ". " (if is_invalid d then "_"%char else d) = one_of ". " d.
Proof. destruct d as [[] [] [] [] [] [] [] []]; reflexivity. Qed.

Lemma replace_invalid_blank (s : list ascii) :
  blank (replace_invalid s) = blank s.
Proof.
  rewrite replace_invalid_map. unfold blank.
  induction s as [|c r IH]; simpl; [reflexivity|].
  rewrite replaced_blank, IH. reflexivity.
Qed.

(** With no separator and a first character that is not a dot, the
    extension starts at the last dot. *)
Lemma splitext_last_dot (pre post : list ascii) :
  "/"%char ∉ pre ++ "."%char :: post ->
  (forall c r, pre = c :: r -> c <> "."%char) ->
  pre <> [] ->
  "."%char ∉ post ->
  splitext (pre ++ "."%char :: post) = (pre, "."%char :: post).
Proof.
  intros Hsep Hhead Hpre Hnot.
  assert (Hnodot : forall c r, pre ++ "."%char :: post = c :: r -> c <> "."%char).
  { intros c r E. destruct pre as [|d pre']; [contradiction|].
    injection E as <- _. exact (Hhead d pre' eq_refl). }
  destruct (splitext_plain _ Hsep Hnodot)
    as [[Hno _] | (pre2 & post2 & E & Hnot2 & _ & ->)].
  - exfalso. apply Hno. apply elem_of_app. right. left.
  - pose proof (rfind_last "." pre post Hnot) as H1.
    pose proof (rfind_last "." pre2 post2 Hnot2) as H2.
    rewrite <- E, H1 in H2. apply Nat2Z.inj in H2.
    apply app_inj_1 in E as [-> [= ->]]; [reflexivity | exact H2].
Qed.

(** X5: [format_filename] on the information extracted from an embed page.
    Without a title it raises [AttributeError] (the fall-back to the guid is
    never taken, since the key [title] is always present).  With a title
    made of dots and spaces only, once one trailing [.mp4] is removed, the
    name is [mp4], without extension.  With any other title the name is a
    stem of 1 to 200 characters, free of invalid characters and starting
    with neither dot nor space, followed by [.mp4]. *)
Theorem format_filename_shape (info : VideoInfo) (guid : string) :
  match title info with
  | None => exists e, format_filename info guid = Raise (LibraryError "AttributeError" e)
  | Some t =>
      if blank (without_mp4 (chars t))
      then format_filename info guid = Ok "mp4"
      else exists stem,
          format_filename info guid = Ok (str (stem ++ chars ".mp4"))
          /\ (1 <= length stem <= 200)%nat
          /\ Forall (fun c => is_invalid c = false) stem
          /\ (forall c r, stem = c :: r -> c <> "."%char /\ c <> " "%char)
  end.
Proof.
  unfold format_filename. destruct (title info) as [t|]; [| eexists; reflexivity].
  fold (without_mp4 (chars t)). set (body := without_mp4 (chars t)).
  destruct (blank body) eqn:Hblank.
  - f_equal. change "mp4" with (str (chars "mp4")). f_equal.
    unfold sanitize_filename, strip.
    rewrite replace_invalid_app, lstrip_app_all
      by (fold (blank (replace_invalid body)); rewrite replace_invalid_blank;
          exact Hblank).
    reflexivity.
  - set (q := replace_invalid body).
    assert (Hq : forallb (one_of ". ") q = false).
    { fold (blank q). unfold q. rewrite replace_invalid_blank. exact Hblank. }
    destruct (lstrip_app_keep (one_of ". ") q (chars ".mp4") Hq) as [Hl Hne].
    set (pre := lstrip (one_of ". ") q) in *.
    assert (Hvalid : Forall (fun c => is_invalid c = false) pre).
    { destruct (lstrip_suffix (one_of ". ") q) as (a & Ha & _).
      pose proof (replace_invalid_valid body) as Hv. fold q in Hv.
      rewrite Ha in Hv. apply Forall_app in Hv as [_ Hv]. exact Hv. }
    assert (Hhead : forall c r, pre = c :: r -> one_of ". " c = false).
    { intros c r E. exact (lstrip_head _ q c r E). }
    assert (Hsplit : splitext (pre ++ chars ".mp4") = (pre, chars ".mp4")).
    { apply (splitext_last_dot pre (chars "mp4")).
      - intros Hin. apply elem_of_app in Hin as [Hin | Hin].
        + rewrite Forall_forall in Hvalid. specialize (Hvalid _ Hin).
          discriminate Hvalid.
        + cbn in Hin. rewrite !elem_of_cons, elem_of_nil in Hin.
          intuition discriminate.
      - intros c r E. apply Hhead in E. apply one_of_dot_space in E. tauto.
      - exact Hne.
      - cbn. rewrite !elem_of_cons, elem_of_nil. intuition discriminate. }
    exists (take 200 pre). split; [| split; [| split]].
    + do 2 f_equal. unfold sanitize_filename, strip.
      rewrite replace_invalid_app. fold q.
      change (replace_invalid (chars ".mp4")) with (chars ".mp4").
      rewrite Hl.
      change (pre ++ chars ".mp4") with (pre ++ chars ".mp" ++ ["4"%char]).
      rewrite app_assoc, rstrip_keep by reflexivity. rewrite <- app_assoc.
      change (chars ".mp" ++ ["4"%char]) with (chars ".mp4").
      rewrite Hsplit, truncate_take. reflexivity.
    + rewrite length_take. destruct pre; [contradiction | cbn [length]; lia].
    + apply Forall_take. exact Hvalid.
    + intros c r E. apply one_of_dot_space.
      destruct pre as [|d pre']; [contradiction|]. simpl in E. injection E as <- _.
      exact (Hhead d pre' eq_refl).
Qed.

End FormatFacts.

(** ** Dropbox share links *)

Section DropboxFacts.
Import PyStr Dropbox.

Lemma match_lit_app (lit r : list ascii) : match_lit lit (lit ++ r) = Some r.
Proof.
  induction lit as [|a lit IH]; simpl; [reflexivity|].
  unfold ceqb. rewrite Ascii.eqb_refl. exact IH.
Qed.




Lemma contains_app_l (sub s b : list ascii) :
  contains sub s = true -> contains sub (s ++ b) = true.
Proof.
  unfold contains. induction s as [|c r IH]; cbn [search app].
  - rewrite orb_false_r. intros H. apply bool_decide_eq_true in H as [x Hx].
    apply match_lit_prefix in Hx. destruct sub; [|discriminate Hx].
    destruct b; reflexivity.
  - intros H. apply orb_true_iff in H as [H | H].
    + apply bool_decide_eq_true in H as [x Hx]. apply match_lit_prefix in Hx.
      change (c :: r ++ b) with ((c :: r) ++ b).
      rewrite Hx, <- app_assoc, match_lit_app. reflexivity.
    + rewrite (IH H). apply orb_true_r.
Qed.


Lemma chars_app (a b : string) : chars (a +:+ b) = chars a ++ chars b.
Proof.
  unfold chars. induction a as [|c a IH]; simpl; [reflexivity|].
  f_equal. exact IH.
Qed.


Section Replace.
(** [old] and [new] differ in their last character only, and start with
    a character that occurs nowhere else in them: occurrences of [old]
    cannot overlap. *)
Variables (h : ascii) (t : list ascii) (x y : ascii).
Hypothesis Hxy : x <> y.
Hypothesis Hht : h ∉ t.
Hypothesis Hhx : h <> x.
Hypothesis Hhy : h <> y.

Local Notation old := (h :: t ++ [x]).
Local Notation new := (h :: t ++ [y]).
Local Notation R := (replace_from old new 0).
Local Notation P := (fun a b : ascii => a = b \/ (a = x /\ b = y)).














End Replace.


(** A link with both markers: only [?dl=0] is rewritten. *)
Example dropbox_both_markers :
  request_url "https://www.dropbox.com/s/abc/f.pdf?dl=0&dl=0"
  = "https://www.dropbox.com/s/abc/f.pdf?dl=1&dl=0".
Proof. vm_compute. reflexivity. Qed.

End DropboxFacts.

(** ** Skipping, restarting and refusing *)

Section SkipFacts.
Context {collab : Collaborators}.
Import PyStr Classifier.

(** Only two classifications carry the flag [False]. *)
Lemma detect_url_type_flag (url : string) (t : UrlType) :
  detect_url_type url = (t, false) -> t = bunnycdn \/ t = unknown.
Proof.
  unfold detect_url_type.
  repeat match goal with
         | |- context [if ?b then _ else _] => destruct b
         | |- context [match ?m with Some _ => _ | None => _ end] => destruct m
         | |- context [let '(_, _) := ?m in _] => destruct m
         | |- context [match ?l with [] => _ | _ :: _ => _ end] => destruct l
         end;
    intros [= <-]; auto.
Qed.

(** X7: a URL with a completed record is skipped when the skip policy is
    on: [download_video] returns [True] and the only change to the world is
    one completion report carrying the recorded file name ([Unknown] when
    the record has none).  No request is sent, nothing is slept and the
    ledger is not rewritten.  This holds for every URL but a DirectVideo URL
    that fails its guid check, which is refused before the skip check. *)
Theorem download_video_skips_completed (url dest_folder : string) (w : World)
    (r : HistoryRecord) :
  skip_existing (config w) = true ->
  history w !! url = Some r ->
  rec_status r = Some "completed" ->
  detect_url_type url <> (bunnycdn, false) ->
  let filename := default "Unknown" (rec_filename r) in
  download_video url dest_folder w
  = (Ok true,
     set_stdout
       (stdout w ++
        [completion_report w ("[SKIP] Already downloaded: " +:+ filename)
           filename (os_path_join dest_folder filename)]) w).
Proof.
  intros Hskip Hr Hstatus Hvalid filename.
  unfold download_video. destruct (detect_url_type url) as [t v] eqn:Hty.
  assert (Hgo : negb v && negb (bool_decide (t = unknown)) = false).
  { destruct v; [reflexivity|].
    destruct (detect_url_type_flag url t Hty) as [-> | ->];
      [contradiction | reflexivity]. }
  rewrite Hgo. unfold bind at 1. rewrite is_downloaded_run, Hskip, Hr, Hstatus.
  rewrite bool_decide_eq_true_2 by reflexivity. cbn [andb].
  unfold bind, recorded_filename, console, emit_complete, emit, ret,
    completion_report.
  rewrite Hr. fold filename.
  destruct (JSON_PROGRESS w) eqn:E; cbn; rewrite E; reflexivity.
Qed.

(** X8: the ledger is written to disk at every [mark_downloaded] and read
    back by [DownloadManager()]: when the history file can be written, a
    restart finds the ledger as the last [mark_downloaded] left it; when
    it cannot (the error of [save_history] is swallowed), a restart finds
    what the file held before, and the record is lost. *)
Theorem ledger_survives_restart (url filename status : string)
    (folder : option string) (w : World) :
  let w1 := (mark_downloaded url filename status folder w).2 in
  let w2 := (DownloadManager_init w1).2 in
  (history_file_writable w = true ->
   history w2 = history w1
   /\ history w2 !! url = Some (record_in w filename status folder))
  /\ (history_file_writable w = false ->
      history w2 = default ∅ (history_file w)).
Proof.
  intros w1 w2. unfold w2, w1, DownloadManager_init, mark_downloaded,
    save_history, modify, bind, record_in.
  split; intros Hw; cbn; rewrite Hw; cbn; [split|]; try reflexivity.
  apply lookup_insert_eq.
Qed.

Lemma record_failure_frame (url dest_folder : string) (e : exn) (w : World) :
  requests (record_failure url dest_folder e w).2 = requests w
  /\ sleeps (record_failure url dest_folder e w).2 = sleeps w.
Proof.
  unfold record_failure, bind, console, emit_error, emit, mark_downloaded,
    save_history, modify, bind, ret.
  destruct (JSON_PROGRESS w) eqn:E; cbn; rewrite ?E; cbn;
    destruct (history_file_writable w); cbn; split; reflexivity.
Qed.

(** X9: the request for the embed page is made outside the retry
    executor.  When it fails, in transport or by its status,
    [download_bunnycdn_video] returns [False] after that single request,
    without sleeping, and files the error as a failed record. *)
Theorem bunnycdn_page_fetch_not_retried (embed_url dest_folder : string)
    (w : World) (e : exn) :
  page_fetch_fails w embed_url e ->
  let run := download_bunnycdn_video embed_url dest_folder w in
  run.1 = Ok false
  /\ requests run.2 = requests w ++ [{| rq_url := embed_url; rq_params := [] |}]
  /\ sleeps run.2 = sleeps w
  /\ history run.2
     = <[embed_url := failed_record (exn_str e) dest_folder (clock w)]> (history w).
Proof.
  intros Hfail run.
  set (rq := {| rq_url := embed_url; rq_params := [] |}) in *.
  set (w1 := set_requests (requests w ++ [rq]) w).
  assert (Hrun : run = record_failure embed_url dest_folder e w1).
  { unfold run, download_bunnycdn_video, try_except. unfold bind at 1.
    rewrite session_get_run. fold rq. fold w1.
    destruct Hfail as [Hreply | (response & Hreply & Hstatus & ->)];
      fold rq in Hreply; rewrite Hreply; [reflexivity|].
    unfold bind at 1. unfold raise_for_status.
    replace ((400 <=? status_code response) && (status_code response <? 600))
      with true by (symmetry; apply andb_true_iff; split;
                    [apply Z.leb_le | apply Z.ltb_lt]; lia).
    reflexivity. }
  rewrite Hrun.
  destruct (record_failure_run embed_url dest_folder e w1) as (Hres & Hhist & _).
  destruct (record_failure_frame embed_url dest_folder e w1) as (Hreq & Hsl).
  split; [exact Hres|]. split; [exact Hreq|]. split; [exact Hsl|].
  exact Hhist.
Qed.

End SkipFacts.

(** X7 on a ledger that holds a completed download: the URL is reported
    complete under its recorded name and nothing is fetched. *)
Lemma download_video_skips_completed_witness :
  let c := Fixture.collaborators (Fixture.constant_reply "") None in
  let w := set_history Fixture.ledger0 (Fixture.world0 3 5 true) in
  @download_video c "http://host/done.mp4" "Downloads" w
  = (Ok true,
     set_stdout [Json (EvComplete "done.mp4" "Downloads/done.mp4")] w).
Proof.
  intros c w.
  apply (@download_video_skips_completed c "http://host/done.mp4" "Downloads" w
           {| rec_filename := Some "done.mp4"; rec_status := Some "completed";
              rec_timestamp := Some 1; rec_folder := Some "Downloads" |}).
  - reflexivity.
  - vm_compute. reflexivity.
  - reflexivity.
  - vm_compute. discriminate.
Defined.

(** X9 against a server that cannot be reached: one request, no sleep, a
    failed record with the error text. *)
Lemma bunnycdn_page_fetch_not_retried_witness :
  let refused : list Request -> Request -> Result Response :=
    fun _ _ => Raise (LibraryError "ConnectionError" "connection refused") in
  let c := Fixture.collaborators refused None in
  let url := "https://iframe.mediadelivery.net/embed/12345/abc-def" in
  let w := Fixture.world0 3 5 true in
  let run := @download_bunnycdn_video c url "Downloads" w in
  run.1 = Ok false
  /\ requests run.2 = [{| rq_url := url; rq_params := [] |}]
  /\ sleeps run.2 = []
  /\ history run.2
     = <[url := failed_record "connection refused" "Downloads" 1000]> ∅.
Proof.
  intros refused c url w.
  apply (@bunnycdn_page_fetch_not_retried c url "Downloads" w
           (LibraryError "ConnectionError" "connection refused")).
  left. reflexivity.
Defined.

Section RefusalFacts.
Context {collab : Collaborators}.
Import PyStr Classifier.








End RefusalFacts.


(** ** Classifier and resolvers *)

Section ResolverFacts.
Context {collab : Collaborators}.
Import PyStr Classifier.

Lemma matches_search_first {B} (m : list ascii -> option B) (url : string) :
  matches m url = true -> exists x, search_first m (chars url) = Some x.
Proof. unfold matches. intros H. apply bool_decide_eq_true in H. exact H. Qed.

Lemma detect_googledrive_file (url : string) :
  (detect_url_type url).1 = googledrive_file ->
  matches googledrive_file_pattern url = true.
Proof.
  unfold detect_url_type.
  destruct (contains (chars "iframe.mediadelivery.net/embed/") (chars url)).
  - destruct (search_first embed_pattern (chars url)) as [[g1 [|c g2]]|];
      discriminate.
  - destruct (matches googledrive_file_pattern url); [reflexivity|].
    repeat match goal with
           | |- context [if ?b then _ else _] => destruct b
           end; discriminate.
Qed.

Lemma detect_googledocs (url : string) :
  (detect_url_type url).1 = googledocs -> matches googledocs_pattern url = true.
Proof.
  unfold detect_url_type.
  destruct (contains (chars "iframe.mediadelivery.net/embed/") (chars url)).
  - destruct (search_first embed_pattern (chars url)) as [[g1 [|c g2]]|];
      discriminate.
  - destruct (matches googledrive_file_pattern url); [discriminate|].
    destruct (matches googledrive_folder_pattern url); [discriminate|].
    destruct (matches googledocs_pattern url); [reflexivity|].
    repeat match goal with
           | |- context [if ?b then _ else _] => destruct b
           end; discriminate.
Qed.

(** X11: the classifier and the link resolvers agree.  A URL classified
    as a Google Drive file always has a direct link, built from a non-empty
    id of id characters; a URL classified as a Google Docs document always
    has an export link for the default format [pdf], whatever its document
    type. *)
Theorem classified_urls_resolve (url : string) :
  ((detect_url_type url).1 = googledrive_file ->
   exists file_id,
     get_google_drive_direct_link url
     = Some ("https://drive.google.com/uc?export=download&id=" +:+ str file_id,
             str file_id)
     /\ file_id <> [] /\ forallb is_id_char file_id = true)
  /\ ((detect_url_type url).1 = googledocs ->
      exists doc_type doc_id,
        doc_type ∈ ["document"; "spreadsheets"; "presentation"]
        /\ get_google_docs_export_link url "pdf"
           = Some ("https://docs.google.com/" +:+ doc_type +:+ "/d/" +:+ doc_id
                     +:+ "/export?format=pdf", doc_id)).
Proof.
  split; intros Hty.
  - apply detect_googledrive_file, matches_search_first in Hty as [file_id Hm].
    exists file_id. unfold get_google_drive_direct_link. rewrite Hm.
    split; [reflexivity|].
    apply search_first_Some in Hm as (pre & t & _ & Ht).
    unfold googledrive_file_pattern in Ht.
    destruct (match_lit (chars "https://drive.google.com/file/d/") t) as [r0|];
      [|discriminate Ht].
    cbn [mbind option_bind] in Ht.
    destruct (run1 is_id_char r0) as [[g1 r1]|] eqn:Hrun; [|discriminate Ht].
    cbn in Ht. injection Ht as <-.
    apply run1_spec in Hrun as (_ & Hall & Hne). split; assumption.
  - apply detect_googledocs, matches_search_first in Hty as [[g1 g2] Hm].
    pose proof (googledocs_doc_type url g1 g2 Hm) as Hdoc.
    exists (str g1), (str g2). split; [exact Hdoc|].
    unfold get_google_docs_export_link. rewrite Hm.
    rewrite !elem_of_cons, elem_of_nil in Hdoc.
    destruct Hdoc as [-> | [-> | [-> | []]]]; reflexivity.
Qed.



Lemma count_occ_bool (l : list bool) :
  (count_occ bool_dec l true + count_occ bool_dec l false = length l)%nat.
Proof.
  induction l as [|[] l IH]; simpl; [reflexivity | |]; lia.
Qed.

(** X13: with a ledger whose entries are records, the download loop
    counts every URL exactly once.  Whatever the URLs and whatever the
    downloaders do for each, the loop returns, and its two counters have
    grown by the number of URLs in total, neither having decreased. *)
Theorem download_all_counts_every_url (urls : list string) (output : string)
    (successful failed : Z) (w : World) :
  exists successful' failed',
    (download_all urls output successful failed w).1 = Ok (successful', failed')
    /\ successful' + failed' = successful + failed + Z.of_nat (length urls)
    /\ successful <= successful' /\ failed <= failed'.
Proof.
  destruct (download_all_run urls output successful failed w) as [Hrun Hlen].
  pose proof (count_occ_bool (outcomes urls output w)) as Hsum.
  rewrite Hlen in Hsum. rewrite Hrun.
  eexists _, _. split; [reflexivity|]. lia.
Qed.

End ResolverFacts.


(** ** Ties between resolutions *)

Section TieFacts.
Context {collab : Collaborators}.
Import PyStr.



End TieFacts.


Example first_among_equals_demo :
  (@_get_best_resolution
     (Fixture.collaborators
        (Fixture.constant_reply "960x720/video.drm 1280x720/video.drm") None)
     "guid" "c1" "s3cr3t" (Fixture.world0 3 5 true)).1
  = Ok "960x720".
Proof. vm_compute. reflexivity. Qed.

(** ** Shape of the extracted URLs *)

Section SchemeFacts.
Import PyStr Extractor.

Lemma str_app (a b : list ascii) : str (a ++ b) = str a +:+ str b.
Proof.
  unfold str. induction a as [|c a IH]; simpl; [reflexivity|].
  rewrite IH. reflexivity.
Qed.

(** A match of the URL pattern is a scheme, [://] and a body. *)
Lemma url_pattern_scheme (s tok : list ascii) (n : nat) :
  url_pattern s = Some (tok, n) ->
  exists body,
    tok = chars "http://" ++ body \/ tok = chars "https://" ++ body.
Proof.
  assert (Hafter : forall pre r m,
            after_scheme pre r = Some m ->
            exists body, m.1 = pre ++ chars "://" ++ body).
  { intros pre r m. unfold after_scheme.
    destruct (match_lit (chars "://") r) as [r'|]; [|discriminate].
    destruct (url_body 0 r') as [|k]; [discriminate|].
    intros [= <-]. eexists. reflexivity. }
  unfold url_pattern. destruct (match_lit (chars "http") s) as [r|]; [|discriminate].
  destruct (match_lit (chars "s") r) as [r'|].
  - destruct (after_scheme (chars "https") r') as [m|] eqn:E.
    + intros [= ->]. apply Hafter in E as [body E]. exists body. right. exact E.
    + intros E'. apply Hafter in E' as [body E']. exists body. left. exact E'.
  - intros E'. apply Hafter in E' as [body E']. exists body. left. exact E'.
Qed.

(** [rstrip] never reaches behind a character that is not in the class. *)
Lemma rstrip_keeps_prefix (p : ascii -> bool) (a : list ascii) (c : ascii)
    (x : list ascii) :
  p c = false -> exists x', rstrip p (a ++ c :: x) = a ++ c :: x'.
Proof.
  intros Hc. induction a as [|d a [x' IH]]; cbn [app rstrip].
  - destruct (rstrip p x) as [|y r'].
    + rewrite Hc. exists []. reflexivity.
    + exists (y :: r'). reflexivity.
  - rewrite IH. exists x'. destruct a; reflexivity.
Qed.

Lemma clean_url_scheme (scheme body : list ascii) :
  exists rest, clean_url (scheme ++ "/"%char :: body) = scheme ++ "/"%char :: rest.
Proof.
  unfold clean_url, strip_trailing_punct.
  destruct (rstrip_keeps_prefix
              (fun c => one_of ".,;:!?" c || is_space c) scheme "/" body eq_refl)
    as [x' ->].
  destruct (count "(" (scheme ++ "/"%char :: x') <? count ")" (scheme ++ "/"%char :: x'))%nat.
  - destruct (rstrip_keeps_prefix (fun c => ceqb c ")") scheme "/" x' eq_refl)
      as [x'' ->].
    exists x''. reflexivity.
  - exists x'. reflexivity.
Qed.

(** X15: every URL [extract_urls_from_text] returns still starts with its
    scheme, [http://] or [https://]: the trailing punctuation and
    parentheses that are stripped never reach into it. *)
Theorem extracted_urls_keep_scheme (text : string) :
  Forall (fun url => exists rest,
            url = "http://" +:+ rest \/ url = "https://" +:+ rest)
    (extract_urls_from_text text).
Proof.
  apply Forall_forall. intros url Hin.
  unfold extract_urls_from_text in Hin. apply unique_from_elem in Hin as [Hin _].
  unfold captured_urls in Hin.
  apply list_elem_of_fmap in Hin as (tok & -> & Htok).
  assert (Hall : Forall (fun tok => exists body,
                           tok = chars "http://" ++ body
                           \/ tok = chars "https://" ++ body)
                   (finditer (chars text))).
  { apply scan_Forall. intros s a n. apply url_pattern_scheme. }
  rewrite Forall_forall in Hall. destruct (Hall tok Htok) as [body [-> | ->]].
  - destruct (clean_url_scheme (chars "http:/") body) as [rest Hrest].
    exists (str rest). left.
    change (chars "http://" ++ body) with (chars "http:/" ++ "/"%char :: body).
    rewrite Hrest.
    change (chars "http:/" ++ "/"%char :: rest) with (chars "http://" ++ rest).
    rewrite str_app. reflexivity.
  - destruct (clean_url_scheme (chars "https:/") body) as [rest Hrest].
    exists (str rest). right.
    change (chars "https://" ++ body) with (chars "https:/" ++ "/"%char :: body).
    rewrite Hrest.
    change (chars "https:/" ++ "/"%char :: rest) with (chars "https://" ++ rest).
    rewrite str_app. reflexivity.
Qed.

(** The scheme can be all that is left. *)
Example scheme_only_demo :
  extract_urls_from_text "see http://... and https://host/a.b." = ["http://"; "https://host/a.b"].
Proof. vm_compute. reflexivity. Qed.

End SchemeFacts.

(** ** Progress labels *)

Section ProgressFacts.
Import PyStr Progress.

Lemma split_no_sep (sep : ascii) (s : list ascii) :
  sep ∉ s -> split sep s = [s].
Proof.
  induction s as [|c r IH]; intros Hnot; cbn [split]; [reflexivity|].
  destruct (ceqb c sep) eqn:E.
  - exfalso. apply Hnot. apply ceqb_true in E as ->. left.
  - rewrite IH; [reflexivity|]. intros Hin. apply Hnot. right. exact Hin.
Qed.

Lemma split_at_sep (sep : ascii) (a b : list ascii) :
  sep ∉ a -> split sep (a ++ sep :: b) = a :: split sep b.
Proof.
  induction a as [|c a IH]; intros Hnot; cbn [split app].
  - unfold ceqb. rewrite Ascii.eqb_refl. reflexivity.
  - destruct (ceqb c sep) eqn:E.
    + exfalso. apply Hnot. apply ceqb_true in E as ->. left.
    + rewrite IH; [reflexivity|]. intros Hin. apply Hnot. right. exact Hin.
Qed.

Lemma fields_ok : forallb field_ok (seq 0 100) = true.
Proof. vm_compute. reflexivity. Qed.

Lemma pad2_field (n : Z) :
  0 <= n < 100 ->
  py_int (chars (pad2 n)) = Some n /\ ":"%char ∉ chars (pad2 n).
Proof.
  intros Hn. pose proof fields_ok as Hall. rewrite forallb_forall in Hall.
  specialize (Hall (Z.to_nat n)). rewrite in_seq in Hall.
  specialize (Hall ltac:(lia)). unfold field_ok in Hall.
  rewrite Z2Nat.id in Hall by lia.
  apply andb_true_iff in Hall as [Hint Hsep].
  apply bool_decide_eq_true in Hint. split; [exact Hint|].
  intros Hin. apply negb_true_iff in Hsep.
  assert (Hex : existsb (fun c => ceqb c ":") (chars (pad2 n)) = true).
  { apply existsb_exists. exists ":"%char. split.
    - apply list_elem_of_In. exact Hin.
    - unfold ceqb. apply Ascii.eqb_refl. }
  congruence.
Qed.

(** X16: the label [_format_time] gives for a positive whole number of
    seconds below one hundred hours reads back as that duration: split at
    the colons, its fields are the minutes and seconds (below 60 each),
    preceded by the hours exactly when there is at least one. *)
Theorem format_time_reads_back (seconds : Z) :
  0 < seconds < 360000 ->
  exists h m s,
    seconds = 3600 * h + 60 * m + s
    /\ 0 <= h < 100 /\ 0 <= m < 60 /\ 0 <= s < 60
    /\ map py_int (split ":" (chars (_format_time (Some seconds))))
       = if h =? 0 then [Some m; Some s] else [Some h; Some m; Some s].
Proof.
  intros Hs.
  set (h := seconds / 3600). set (m := (seconds mod 3600) / 60).
  set (s := seconds mod 60).
  pose proof (Z.div_mod seconds 3600 ltac:(lia)) as E1.
  pose proof (Z.mod_pos_bound seconds 3600 ltac:(lia)) as B1.
  pose proof (Z.div_mod (seconds mod 3600) 60 ltac:(lia)) as E2.
  pose proof (Z.mod_pos_bound (seconds mod 3600) 60 ltac:(lia)) as B2.
  assert (E3 : (seconds mod 3600) mod 60 = seconds mod 60).
  { apply (Z.mod_unique_pos seconds 60
             (60 * (seconds / 3600) + (seconds mod 3600) / 60)); lia. }
  rewrite E3 in E2, B2. fold h in E1. fold m in E2. fold s in E2, B2.
  assert (Hh : 0 <= h < 100).
  { unfold h. split; [apply Z.div_pos; lia | apply Z.div_lt_upper_bound; lia]. }
  assert (Hm : 0 <= m < 60).
  { unfold m. split; [apply Z.div_pos; lia | apply Z.div_lt_upper_bound; lia]. }
  exists h, m, s. split; [lia|]. split; [exact Hh|]. split; [exact Hm|].
  split; [exact B2|].
  destruct (pad2_field h Hh) as [Ph Nh].
  destruct (pad2_field m ltac:(lia)) as [Pm Nm].
  destruct (pad2_field s ltac:(lia)) as [Ps Ns].
  unfold _format_time. fold h m s.
  replace (seconds <=? 0) with false by (symmetry; apply Z.leb_gt; lia).
  destruct (Z.eqb_spec h 0) as [Hz | Hnz].
  - replace (0 <? h) with false by (symmetry; apply Z.ltb_ge; lia).
    rewrite !chars_app. change (chars ":") with [":"%char]. cbn [app].
    rewrite split_at_sep, split_no_sep by assumption.
    cbn [map]. rewrite Pm, Ps. reflexivity.
  - replace (0 <? h) with true by (symmetry; apply Z.ltb_lt; lia).
    rewrite !chars_app. change (chars ":") with [":"%char]. cbn [app].
    rewrite split_at_sep, split_at_sep, split_no_sep by assumption.
    cbn [map]. rewrite Ph, Pm, Ps. reflexivity.
Qed.

End ProgressFacts.

(** X16 on an hour, a minute and a second. *)
Lemma format_time_reads_back_witness :
  Progress._format_time (Some 3661) = "01:01:01"
  /\ exists h m s,
       3661 = 3600 * h + 60 * m + s
       /\ 0 <= h < 100 /\ 0 <= m < 60 /\ 0 <= s < 60
       /\ map PyStr.py_int
            (PyStr.split ":" (PyStr.chars (Progress._format_time (Some 3661))))
          = if h =? 0 then [Some m; Some s] else [Some h; Some m; Some s].
Proof.
  split; [reflexivity|]. apply (format_time_reads_back 3661). lia.
Defined.
